(** * Inventory and billing backend: a shallow embedding of [app.py]

    The Flask application keeps its whole state in one SQLite file with the
    tables [users], [products], [inventory], [bills] and [bill_items].
    Every route opens a connection with [get_db_connection], runs a few SQL
    statements and commits, or rolls back.  Here a database is a record of
    row lists (in rowid order) together with the AUTOINCREMENT counters, a
    route is a function from the database before the request to the
    database after it and the HTTP response, and the SQL statements the
    routes execute are list functions named after the statement.

    Conventions of the embedding:
    - Python [int] and SQLite INTEGER are [Z]; Python [float] and SQLite
      REAL are IEEE binary64, Rocq's primitive [float]; the 64-bit range
      of INTEGER and SQLite's storing of NaN as NULL are not modelled;
    - a JSON field read with [data.get] is an [option] ([None] when the key
      is absent), the fields the code tests with [isinstance] carry the
      outcome of that test ([int_field], [items_field]), and the numbers
      [price], [discount] and [tax_rate] arrive as doubles;
    - [datetime.now().isoformat()] is an argument of the route;
    - rows come back in table order unless the query has an ORDER BY. *)

From Stdlib Require Import ZArith List String Ascii Bool Lia Floats.
From Stdlib Require Import DecimalString Sorted Permutation.
Import ListNotations.

Open Scope string_scope.
Open Scope Z_scope.
Open Scope list_scope.

(** ** Python values *)

(** [str(n)] for an integer, as the f-strings of the routes print it. *)
Definition str (n : Z) : string := NilZero.string_of_int (Z.to_int n).

(** The conversion Python applies to the [int] operand of [float * int]:
    the nearest double, ties to even.  For an integer beyond the range of
    the doubles Python raises OverflowError; here it gives an infinity. *)
Definition float_of_int (n : Z) : float :=
  SF2Prim (binary_normalize prec emax n 0 false).

Definition fzero : float := 0%float.
Definition fone : float := 1%float.

(** A field that the code expects to hold an integer:
    [Absent] is a missing key (or null), [NotInt] a value for which
    [isinstance(_, int)] is false. *)
Inductive int_field :=
| Absent
| NotInt
| Int (n : Z).

(** Truth value of an optional string, as [all([...])] tests it. *)
Definition truthy_str (o : option string) : bool :=
  match o with
  | Some s => negb (String.eqb s "")
  | None => false
  end.

(** Truth value of an optional integer: [None] and [0] are false. *)
Definition truthy_int (o : option Z) : bool :=
  match o with
  | Some n => negb (n =? 0)
  | None => false
  end.

Definition is_some {A : Type} (o : option A) : bool :=
  match o with Some _ => true | None => false end.

Definition is_present (q : int_field) : bool :=
  match q with Absent => false | _ => true end.

Definition get_default {A : Type} (o : option A) (d : A) : A :=
  match o with Some a => a | None => d end.

(** ** Tables *)

Record user := mkUser {
  u_id : Z;
  u_username : string;
  u_password : string
}.

Record product := mkProduct {
  p_id : Z;
  p_name : string;
  p_description : option string;
  p_price : float;
  p_initial_quantity : Z
}.

Record batch := mkBatch {
  i_id : Z;
  i_product_id : Z;
  i_batch_number : string;
  i_quantity : Z
}.

Record bill := mkBill {
  b_id : Z;
  b_customer_name : string;
  b_bill_date : string;
  b_total_amount : float;
  b_discount : float;
  b_tax : float
}.

Record bill_item := mkBillItem {
  bi_id : Z;
  bi_bill_id : Z;
  bi_product_id : Z;
  bi_quantity : Z;
  bi_price_at_purchase : float
}.

(** The database file.  Each [seq_*] is the table's entry in
    [sqlite_sequence]: the largest id AUTOINCREMENT has handed out. *)
Record db := mkDb {
  users : list user;
  products : list product;
  inventory : list batch;
  bills : list bill;
  bill_items : list bill_item;
  seq_users : Z;
  seq_products : Z;
  seq_inventory : Z;
  seq_bills : Z;
  seq_bill_items : Z
}.

(** The database [init_db] creates on first start. *)
Definition init_db : db := mkDb [] [] [] [] [] 0 0 0 0 0.

Definition with_products (ps : list product) (s : db) : db :=
  mkDb (users s) ps (inventory s) (bills s) (bill_items s)
       (seq_users s) (seq_products s) (seq_inventory s) (seq_bills s)
       (seq_bill_items s).

Definition with_inventory (inv : list batch) (s : db) : db :=
  mkDb (users s) (products s) inv (bills s) (bill_items s)
       (seq_users s) (seq_products s) (seq_inventory s) (seq_bills s)
       (seq_bill_items s).

(** A connection.  [sqlite3.connect] opens it with foreign-key enforcement
    switched off, which is SQLite's default, and no route of the
    application executes [PRAGMA foreign_keys = ON]. *)
Record connection := mkConn {
  conn_db : db;
  conn_foreign_keys : bool
}.

Definition get_db_connection (s : db) : connection :=
  mkConn s false.

(** ** SQL statements *)

Module Sql.

(** [INSERT INTO users (username, password) VALUES (?, ?)]; [None] is the
    IntegrityError of the UNIQUE constraint on [username]. *)
Definition insert_user (username password : string) (s : db) : option db :=
  if existsb (fun u => String.eqb (u_username u) username) (users s) then None
  else
    let id := seq_users s + 1 in
    Some (mkDb (users s ++ [mkUser id username password]) (products s)
               (inventory s) (bills s) (bill_items s)
               id (seq_products s) (seq_inventory s) (seq_bills s)
               (seq_bill_items s)).

(** [SELECT * FROM users WHERE username = ? AND password = ?], [fetchone]. *)
Definition select_user (username password : string) (s : db) : option user :=
  find (fun u => String.eqb (u_username u) username
                 && String.eqb (u_password u) password)
       (users s).

(** [INSERT INTO products (name, description, price, initial_quantity)];
    returns the database and [cursor.lastrowid], or [None] for the
    IntegrityError of the UNIQUE constraint on [name]. *)
Definition insert_product (name : string) (description : option string)
    (price : float) (initial_quantity : Z) (s : db) : option (db * Z) :=
  if existsb (fun p => String.eqb (p_name p) name) (products s) then None
  else
    let id := seq_products s + 1 in
    Some (mkDb (users s)
               (products s ++ [mkProduct id name description price initial_quantity])
               (inventory s) (bills s) (bill_items s)
               (seq_users s) id (seq_inventory s) (seq_bills s)
               (seq_bill_items s), id).

(** [SELECT ... FROM products WHERE id = ?], [fetchone]. *)
Definition select_product (id : Z) (s : db) : option product :=
  find (fun p => p_id p =? id) (products s).

(** [UPDATE products SET name = ?, description = ?, price = ? WHERE id = ?];
    returns the database and [cursor.rowcount], or [None] when a row would
    be given the name of another row (IntegrityError). *)
Definition update_product (name : string) (description : option string)
    (price : float) (id : Z) (s : db) : option (db * Z) :=
  let hit := filter (fun p => p_id p =? id) (products s) in
  if negb (Z.of_nat (List.length hit) =? 0)
     && existsb (fun p => negb (p_id p =? id) && String.eqb (p_name p) name) (products s)
  then None
  else
    Some (with_products
            (map (fun p => if p_id p =? id
                           then mkProduct (p_id p) name description price
                                          (p_initial_quantity p)
                           else p) (products s)) s,
          Z.of_nat (List.length hit)).

(** [DELETE FROM products WHERE id = ?]; returns [cursor.rowcount] too.
    The schema declares [ON DELETE CASCADE] on [inventory.product_id] and
    on [bill_items.product_id]; SQLite performs these actions only on a
    connection whose foreign-key enforcement is on. *)
Definition delete_product (id : Z) (c : connection) : db * Z :=
  let s := conn_db c in
  let hit := filter (fun p => p_id p =? id) (products s) in
  let keep := filter (fun p => negb (p_id p =? id)) (products s) in
  let cascade := conn_foreign_keys c && negb (Z.of_nat (List.length hit) =? 0) in
  (mkDb (users s) keep
        (if cascade
         then filter (fun r => negb (i_product_id r =? id)) (inventory s)
         else inventory s)
        (bills s)
        (if cascade
         then filter (fun bi => negb (bi_product_id bi =? id)) (bill_items s)
         else bill_items s)
        (seq_users s) (seq_products s) (seq_inventory s) (seq_bills s)
        (seq_bill_items s),
   Z.of_nat (List.length hit)).

(** [INSERT INTO inventory (product_id, batch_number, quantity)]. *)
Definition insert_inventory (product_id : Z) (batch_number : string)
    (quantity : Z) (s : db) : db :=
  let id := seq_inventory s + 1 in
  mkDb (users s) (products s)
       (inventory s ++ [mkBatch id product_id batch_number quantity])
       (bills s) (bill_items s)
       (seq_users s) (seq_products s) id (seq_bills s) (seq_bill_items s).

(** [SELECT id, quantity FROM inventory WHERE product_id = ? AND
    batch_number = ?], [fetchone]. *)
Definition select_batch (product_id : Z) (batch_number : string) (s : db)
    : option batch :=
  find (fun r => (i_product_id r =? product_id)
                 && String.eqb (i_batch_number r) batch_number) (inventory s).

(** [INSERT OR IGNORE INTO inventory ...]: nothing happens when the pair
    (product_id, batch_number) is already there. *)
Definition insert_or_ignore_inventory (product_id : Z) (batch_number : string)
    (quantity : Z) (s : db) : db :=
  if is_some (select_batch product_id batch_number s) then s
  else insert_inventory product_id batch_number quantity s.

(** [UPDATE inventory SET quantity = quantity + ? WHERE product_id = ? AND
    batch_number = ?]. *)
Definition add_inventory_quantity (delta product_id : Z)
    (batch_number : string) (s : db) : db :=
  with_inventory
    (map (fun r => if (i_product_id r =? product_id)
                      && String.eqb (i_batch_number r) batch_number
                   then mkBatch (i_id r) (i_product_id r) (i_batch_number r)
                                (i_quantity r + delta)
                   else r) (inventory s)) s.

(** [UPDATE inventory SET quantity = ? WHERE id = ?]. *)
Definition update_inventory_quantity (quantity id : Z) (s : db) : db :=
  with_inventory
    (map (fun r => if i_id r =? id
                   then mkBatch (i_id r) (i_product_id r) (i_batch_number r)
                                quantity
                   else r) (inventory s)) s.

(** [DELETE FROM inventory WHERE id = ?]. *)
Definition delete_inventory (id : Z) (s : db) : db :=
  with_inventory (filter (fun r => negb (i_id r =? id)) (inventory s)) s.

(** Rows put in ascending [id] order, for [ORDER BY id ASC]. *)
Fixpoint insert_by_id (r : batch) (l : list batch) : list batch :=
  match l with
  | [] => [r]
  | x :: l' => if i_id r <=? i_id x then r :: l else x :: insert_by_id r l'
  end.

Definition order_by_id (l : list batch) : list batch :=
  fold_right insert_by_id [] l.

(** [SELECT id, quantity FROM inventory WHERE product_id = ? ORDER BY id ASC],
    [fetchall]. *)
Definition select_batches (product_id : Z) (s : db) : list batch :=
  order_by_id (filter (fun r => i_product_id r =? product_id) (inventory s)).

(** [INSERT INTO bills (customer_name, bill_date, total_amount, discount,
    tax)]; returns [cursor.lastrowid] too. *)
Definition insert_bill (customer_name bill_date : string)
    (total_amount discount tax : float) (s : db) : db * Z :=
  let id := seq_bills s + 1 in
  (mkDb (users s) (products s) (inventory s)
        (bills s ++ [mkBill id customer_name bill_date total_amount discount tax])
        (bill_items s)
        (seq_users s) (seq_products s) (seq_inventory s) id (seq_bill_items s),
   id).

(** [INSERT INTO bill_items (bill_id, product_id, quantity,
    price_at_purchase)]. *)
Definition insert_bill_item (bill_id product_id quantity : Z)
    (price_at_purchase : float) (s : db) : db :=
  let id := seq_bill_items s + 1 in
  mkDb (users s) (products s) (inventory s) (bills s)
       (bill_items s ++ [mkBillItem id bill_id product_id quantity price_at_purchase])
       (seq_users s) (seq_products s) (seq_inventory s) (seq_bills s) id.

(** Bills put in descending [bill_date] order, for [ORDER BY bill_date DESC];
    TEXT values compare byte by byte. *)
Fixpoint insert_by_date (b : bill) (l : list bill) : list bill :=
  match l with
  | [] => [b]
  | x :: l' => if String.leb (b_bill_date x) (b_bill_date b)
               then b :: l else x :: insert_by_date b l'
  end.

Definition order_by_date_desc (l : list bill) : list bill :=
  fold_right insert_by_date [] l.

End Sql.

(** ** Requests and responses *)

(** One element of the [items] array of [POST /bill]. *)
Record item := mkItem {
  item_product_id : option Z;
  item_quantity : int_field
}.

(** The [items] field of [POST /bill]: absent (or null), a JSON value that
    is not an array, or an array of objects. *)
Inductive items_field :=
| NoItems
| NotAList (truthy : bool)
| Items (l : list item).

Definition truthy_items (f : items_field) : bool :=
  match f with
  | NoItems => false
  | NotAList t => t
  | Items l => negb (Z.of_nat (List.length l) =? 0)
  end.

(** A row of [GET /inventory]. *)
Record inventory_view := mkInventoryView {
  iv_id : Z;
  iv_product_name : string;
  iv_description : option string;
  iv_price : float;
  iv_batch_number : string;
  iv_quantity : Z;
  iv_product_id : Z
}.

(** An element of the [items] array of a bill returned by [GET /bills]. *)
Record item_view := mkItemView {
  it_quantity : Z;
  it_price_at_purchase : float;
  it_product_name : string;
  it_description : option string
}.

(** A bill returned by [GET /bills]: the columns of the row and [items]. *)
Record bill_view := mkBillView {
  bv_bill : bill;
  bv_items : list item_view
}.

(** JSON bodies, one constructor per shape the routes build with [jsonify];
    [Unhandled] is Flask's answer to an exception no handler catches. *)
Inductive body :=
| Message (message : string)
| Error (error : string)
| LoggedIn (message username : string)
| ProductAdded (message : string) (id : Z)
| BillGenerated (message : string) (bill_id : Z) (total_amount : float)
| ProductRows (rows : list product)
| InventoryRows (rows : list inventory_view)
| BillRows (rows : list bill_view)
| File (path : string)
| Unhandled.

Definition response : Type := Z * body.

Definition status (r : response) : Z := fst r.

(** ** Routes *)

Definition serve_index (s : db) : db * response :=
  (s, (200, File "index.html")).

Definition register_user (username password : option string) (s : db)
    : db * response :=
  if negb (truthy_str username && truthy_str password)
  then (s, (400, Error "Username and password are required"))
  else
    match username, password with
    | Some u, Some p =>
        match Sql.insert_user u p s with
        | Some s' => (s', (201, Message "User registered successfully"))
        | None => (s, (409, Error "Username already exists"))
        end
    | _, _ => (s, (400, Error "Username and password are required"))
    end.

Definition login_user (username password : option string) (s : db)
    : db * response :=
  if negb (truthy_str username && truthy_str password)
  then (s, (400, Error "Username and password are required"))
  else
    match username, password with
    | Some u, Some p =>
        match Sql.select_user u p s with
        | Some user => (s, (200, LoggedIn "Login successful" (u_username user)))
        | None => (s, (401, Error "Invalid username or password"))
        end
    | _, _ => (s, (400, Error "Username and password are required"))
    end.

Definition get_products (s : db) : db * response :=
  (s, (200, ProductRows (products s))).

Definition add_product (name description : option string)
    (price : option float) (initial_quantity : option Z) (s : db)
    : db * response :=
  let initial_quantity := get_default initial_quantity 0 in
  if negb (truthy_str name && is_some price)
  then (s, (400, Error "Name and price are required"))
  else
    match name, price with
    | Some name, Some price =>
        match Sql.insert_product name description price initial_quantity s with
        | None => (s, (409, Error "Product with this name already exists."))
        | Some (s1, product_id) =>
            let s2 :=
              if initial_quantity >? 0 then
                let batch_number := String.append "INITIAL-" (str product_id) in
                let s' := Sql.insert_or_ignore_inventory
                            product_id batch_number initial_quantity s1 in
                Sql.add_inventory_quantity
                  initial_quantity product_id batch_number s'
              else s1 in
            (s2, (201, ProductAdded "Product added successfully" product_id))
        end
    | _, _ => (s, (400, Error "Name and price are required"))
    end.

Definition update_product (product_id : Z) (name description : option string)
    (price : option float) (s : db) : db * response :=
  if negb (truthy_str name && is_some price)
  then (s, (400, Error "Name and price are required"))
  else
    match name, price with
    | Some name, Some price =>
        match Sql.update_product name description price product_id s with
        | None => (s, (500, Unhandled))
        | Some (s', rows_affected) =>
            if rows_affected =? 0
            then (s', (404, Error "Product not found"))
            else (s', (200, Message "Product updated successfully"))
        end
    | _, _ => (s, (400, Error "Name and price are required"))
    end.

Definition delete_product (product_id : Z) (s : db) : db * response :=
  let conn := get_db_connection s in
  let (s', rows_affected) := Sql.delete_product product_id conn in
  if rows_affected =? 0
  then (s', (404, Error "Product not found"))
  else (s', (200, Message "Product deleted successfully")).

Definition get_inventory (s : db) : db * response :=
  (s, (200, InventoryRows
             (flat_map
                (fun i =>
                   map (fun p => mkInventoryView (i_id i) (p_name p)
                                   (p_description p) (p_price p)
                                   (i_batch_number i) (i_quantity i)
                                   (i_product_id i))
                       (filter (fun p => i_product_id i =? p_id p) (products s)))
                (inventory s)))).

Definition add_or_update_inventory (product_id : option Z)
    (batch_number : option string) (quantity : int_field) (s : db)
    : db * response :=
  if negb (truthy_int product_id && truthy_str batch_number
           && is_present quantity)
  then (s, (400, Error "Product ID, batch number, and quantity are required"))
  else
    match product_id, batch_number, quantity with
    | Some product_id, Some batch_number, Int quantity =>
        if quantity <=? 0
        then (s, (400, Error "Quantity must be a positive integer"))
        else
          match Sql.select_product product_id s with
          | None => (s, (404, Error "Product not found"))
          | Some _ =>
              match Sql.select_batch product_id batch_number s with
              | Some existing_batch =>
                  let new_quantity := i_quantity existing_batch + quantity in
                  (Sql.update_inventory_quantity
                     new_quantity (i_id existing_batch) s,
                   (201, Message "Inventory quantity updated successfully"))
              | None =>
                  (Sql.insert_inventory product_id batch_number quantity s,
                   (201, Message "New inventory batch added successfully"))
              end
          end
    | _, _, _ => (s, (400, Error "Quantity must be a positive integer"))
    end.

Definition delete_inventory_batch (inventory_id : Z) (s : db)
    : db * response :=
  let hit := filter (fun r => i_id r =? inventory_id) (inventory s) in
  let s' := Sql.delete_inventory inventory_id s in
  if Z.of_nat (List.length hit) =? 0
  then (s', (404, Error "Inventory batch not found"))
  else (s', (200, Message "Inventory batch deleted successfully")).

(** ** [POST /bill] *)

(** The outcome of code inside the [try] block of [generate_bill]. *)
Inductive raises (A : Type) :=
| Ok (a : A)
| ValueError (msg : string).

Arguments Ok {A} a.
Arguments ValueError {A} msg.

(** The walk over [available_inventory] (the [for inv_batch] loop): the
    list [deducted_from_batches] of pairs (new quantity, batch id) and the
    value of [current_quantity_needed] when the loop is left. *)
Fixpoint deduct_batches (available_inventory : list batch)
    (current_quantity_needed : Z) : list (Z * Z) * Z :=
  match available_inventory with
  | [] => ([], current_quantity_needed)
  | inv_batch :: rest =>
      let batch_id := i_id inv_batch in
      let batch_quantity := i_quantity inv_batch in
      if current_quantity_needed <=? 0 then ([], current_quantity_needed)
      else if batch_quantity >=? current_quantity_needed then
        let new_batch_quantity := batch_quantity - current_quantity_needed in
        let (deducted, needed) := deduct_batches rest 0 in
        ((new_batch_quantity, batch_id) :: deducted, needed)
      else
        let (deducted, needed) :=
          deduct_batches rest (current_quantity_needed - batch_quantity) in
        ((0, batch_id) :: deducted, needed)
  end.

(** The [for new_q, b_id in deducted_from_batches] loop. *)
Definition apply_deductions (deducted_from_batches : list (Z * Z)) (w : db)
    : db :=
  fold_left
    (fun w d =>
       let (new_q, b_id) := (d : Z * Z) in
       if new_q =? 0 then Sql.delete_inventory b_id w
       else Sql.update_inventory_quantity new_q b_id w)
    deducted_from_batches w.

(** An element of [bill_items_to_insert]: product id, quantity and unit
    price. *)
Definition billed_line : Type := Z * Z * float.

(** What the [for item in items] loop carries from one item to the next:
    the database as the open transaction sees it, [total_amount] and
    [bill_items_to_insert]. *)
Definition billing : Type := db * float * list billed_line.

(** The body of the [for item in items] loop. *)
Definition process_item (it : item) (st : billing) : raises billing :=
  let '(w, total_amount, bill_items_to_insert) := st in
  if negb (truthy_int (item_product_id it) && is_present (item_quantity it))
  then ValueError "Each item must have product_id and quantity."
  else
    match item_product_id it, item_quantity it with
    | Some product_id, Int quantity_requested =>
        if quantity_requested <=? 0
        then ValueError (String.append "Invalid quantity for product_id "
                           (String.append (str product_id) "."))
        else
          match Sql.select_product product_id w with
          | None =>
              ValueError (String.append "Product with ID "
                            (String.append (str product_id) " not found."))
          | Some product =>
              let product_price := p_price product in
              let available_inventory := Sql.select_batches product_id w in
              let (deducted_from_batches, current_quantity_needed) :=
                deduct_batches available_inventory quantity_requested in
              if current_quantity_needed >? 0
              then ValueError
                     (String.append "Insufficient stock for product ID "
                        (String.append (str product_id) "."))
              else
                let w' := apply_deductions deducted_from_batches w in
                let item_total :=
                  PrimFloat.mul product_price (float_of_int quantity_requested) in
                Ok (w',
                    PrimFloat.add total_amount item_total,
                    bill_items_to_insert
                      ++ [(product_id, quantity_requested, product_price)])
          end
    | Some product_id, _ =>
        ValueError (String.append "Invalid quantity for product_id "
                      (String.append (str product_id) "."))
    | None, _ => ValueError "Each item must have product_id and quantity."
    end.

(** The [for item in items] loop; the first exception leaves it. *)
Fixpoint process_items (items : list item) (st : billing) : raises billing :=
  match items with
  | [] => Ok st
  | it :: rest =>
      match process_item it st with
      | Ok st' => process_items rest st'
      | ValueError msg => ValueError msg
      end
  end.

(** The [for ... in bill_items_to_insert] loop. *)
Definition insert_bill_items (bill_id : Z)
    (bill_items_to_insert : list billed_line) (w : db) : db :=
  fold_left
    (fun w row =>
       let '(product_id, quantity, price_at_purchase) := (row : billed_line) in
       Sql.insert_bill_item bill_id product_id quantity price_at_purchase w)
    bill_items_to_insert w.

(** [generate_bill].  The statements of the [try] block run in one
    transaction on the connection; [conn.rollback()] in the handler gives
    back the database as it was before the request. *)
Definition generate_bill (now : string) (customer_name : option string)
    (items : items_field) (discount tax_rate : option float) (s : db)
    : db * response :=
  let discount := get_default discount fzero in
  let tax_rate := get_default tax_rate fzero in
  if negb (truthy_str customer_name && truthy_items items)
  then (s, (400, Error "Customer name and items are required for billing"))
  else
    match customer_name, items with
    | Some customer_name, Items items =>
        match process_items items (s, fzero, []) with
        | ValueError e => (s, (400, Error e))
        | Ok (w, total_amount, bill_items_to_insert) =>
            let total_amount_after_discount :=
              PrimFloat.mul total_amount (PrimFloat.sub fone discount) in
            let final_total_amount :=
              PrimFloat.mul total_amount_after_discount
                            (PrimFloat.add fone tax_rate) in
            let bill_date := now in
            let (w1, bill_id) :=
              Sql.insert_bill customer_name bill_date final_total_amount
                              discount tax_rate w in
            let w2 := insert_bill_items bill_id bill_items_to_insert w1 in
            (w2, (201, BillGenerated "Bill generated successfully"
                         bill_id final_total_amount))
        end
    | _, _ => (s, (400, Error "Items must be a non-empty list"))
    end.

(** ** [GET /bills] *)

(** The inner query: the line items of one bill joined with their products. *)
Definition select_bill_items (bill_id : Z) (s : db) : list item_view :=
  flat_map
    (fun bi =>
       map (fun p => mkItemView (bi_quantity bi) (bi_price_at_purchase bi)
                                (p_name p) (p_description p))
           (filter (fun p => bi_product_id bi =? p_id p) (products s)))
    (filter (fun bi => bi_bill_id bi =? bill_id) (bill_items s)).

Definition bills_data (s : db) : list bill_view :=
  map (fun bill => mkBillView bill (select_bill_items (b_id bill) s))
      (Sql.order_by_date_desc (bills s)).

Definition get_bills (s : db) : db * response :=
  (s, (200, BillRows (bills_data s))).

(** ** The application *)

Inductive request :=
| GetIndex
| PostRegister (username password : option string)
| PostLogin (username password : option string)
| GetProducts
| PostProducts (name description : option string) (price : option float)
               (initial_quantity : option Z)
| PutProduct (product_id : Z) (name description : option string)
             (price : option float)
| DeleteProduct (product_id : Z)
| GetInventory
| PostInventory (product_id : option Z) (batch_number : option string)
                (quantity : int_field)
| DeleteInventory (inventory_id : Z)
| PostBill (customer_name : option string) (items : items_field)
           (discount tax_rate : option float)
| GetBills.

(** Dispatch of a request to its route; [now] is the clock reading the
    route gets if it asks for one. *)
Definition handle (now : string) (r : request) (s : db) : db * response :=
  match r with
  | GetIndex => serve_index s
  | PostRegister u p => register_user u p s
  | PostLogin u p => login_user u p s
  | GetProducts => get_products s
  | PostProducts n d p q => add_product n d p q s
  | PutProduct id n d p => update_product id n d p s
  | DeleteProduct id => delete_product id s
  | GetInventory => get_inventory s
  | PostInventory pid b q => add_or_update_inventory pid b q s
  | DeleteInventory id => delete_inventory_batch id s
  | PostBill c items d t => generate_bill now c items d t s
  | GetBills => get_bills s
  end.

(** The database after a sequence of requests, each with its clock reading. *)
Fixpoint run (rs : list (string * request)) (s : db) : db :=
  match rs with
  | [] => s
  | (now, r) :: rest => run rest (fst (handle now r s))
  end.

(** ** Integrity of the stored data *)

(** The ids of a table: pairwise distinct (PRIMARY KEY), positive and at
    most the table's AUTOINCREMENT counter. *)
Definition ids_ok (ids : list Z) (seq : Z) : Prop :=
  NoDup ids /\ Forall (fun i => 0 < i <= seq) ids.

(** The state invariant of the application: primary keys of [products],
    [inventory] and [bills]; every batch belongs to a product id that has
    been handed out, and every line item to a bill id that has been handed
    out; every batch holds a positive quantity. *)
Record wf (s : db) : Prop := mk_wf {
  wf_seq_products : 0 <= seq_products s;
  wf_seq_inventory : 0 <= seq_inventory s;
  wf_seq_bills : 0 <= seq_bills s;
  wf_products : ids_ok (map p_id (products s)) (seq_products s);
  wf_inventory : ids_ok (map i_id (inventory s)) (seq_inventory s);
  wf_bills : ids_ok (map b_id (bills s)) (seq_bills s);
  wf_refs : Forall (fun r => i_product_id r <= seq_products s) (inventory s);
  wf_positive : Forall (fun r => 0 < i_quantity r) (inventory s);
  wf_lines : Forall (fun bi => bi_bill_id bi <= seq_bills s) (bill_items s)
}.

Fixpoint nodupb (l : list Z) : bool :=
  match l with
  | [] => true
  | x :: l' => negb (existsb (Z.eqb x) l') && nodupb l'
  end.

Definition ids_okb (ids : list Z) (seq : Z) : bool :=
  nodupb ids && forallb (fun i => (0 <? i) && (i <=? seq)) ids.

(** The invariant as a test that can be run on a database. *)
Definition wf_db (s : db) : bool :=
  (0 <=? seq_products s) && (0 <=? seq_inventory s) && (0 <=? seq_bills s)
  && ids_okb (map p_id (products s)) (seq_products s)
  && ids_okb (map i_id (inventory s)) (seq_inventory s)
  && ids_okb (map b_id (bills s)) (seq_bills s)
  && forallb (fun r => i_product_id r <=? seq_products s) (inventory s)
  && forallb (fun r => 0 <? i_quantity r) (inventory s)
  && forallb (fun bi => bi_bill_id bi <=? seq_bills s) (bill_items s).


(** The quantities of a list of batches, added up. *)
Definition sum_quantities (l : list batch) : Z :=
  fold_right (fun r acc => i_quantity r + acc) 0 l.

(** The batches of a product, in table order, and its stock: the total
    over all its batches. *)
Definition batches_of (product_id : Z) (s : db) : list batch :=
  filter (fun r => i_product_id r =? product_id) (inventory s).

Definition stock (product_id : Z) (s : db) : Z :=
  sum_quantities (batches_of product_id s).

(** ** Billing, row by row *)

Definition set_quantity (q : Z) (r : batch) : batch :=
  mkBatch (i_id r) (i_product_id r) (i_batch_number r) q.

(** One element of [deducted_from_batches] carried out on the rows of
    [inventory]: the DELETE when the new quantity is 0, the UPDATE
    otherwise. *)
Definition deduct_row (d : Z * Z) (inv : list batch) : list batch :=
  if fst d =? 0
  then filter (fun r => negb (i_id r =? snd d)) inv
  else map (fun r => if i_id r =? snd d then set_quantity (fst d) r else r) inv.

Definition deduct_rows (ds : list (Z * Z)) (inv : list batch) : list batch :=
  fold_left (fun inv d => deduct_row d inv) ds inv.

(** What billing does to a row [r] of [inventory] when the batches [gone]
    are used up and batch [b] is left with [remaining] units. *)
Definition fifo_outcome (gone : list batch) (b : batch) (remaining : Z)
    (r : batch) : list batch :=
  if existsb (fun g => i_id r =? i_id g) gone then []
  else if i_id r =? i_id b
       then (if remaining =? 0 then [] else [set_quantity remaining r])
       else [r].

(** The message of the ValueError raised for a product short of stock. *)
Definition insufficient_stock (product_id : Z) : string :=
  String.append "Insufficient stock for product ID "
                (String.append (str product_id) ".").

(** An item of valid shape: a product id and an integer quantity. *)
Definition line (product_id quantity : Z) : item :=
  mkItem (Some product_id) (Int quantity).

(** ** The total of a bill, as a formula *)

Definition item_of (l : billed_line) : item :=
  let '(product_id, quantity, _) := l in line product_id quantity.

(** The sum of [price * quantity] over the lines, added up from 0.0 in the
    order of the lines. *)
Definition subtotal (lines : list billed_line) : float :=
  fold_left
    (fun acc l => let '(_, quantity, price) := (l : billed_line) in
                  PrimFloat.add acc (PrimFloat.mul price (float_of_int quantity)))
    lines fzero.

(** [subtotal * (1 - discount) * (1 + tax_rate)]. *)
Definition bill_total (lines : list billed_line) (discount tax_rate : float)
    : float :=
  PrimFloat.mul (PrimFloat.mul (subtotal lines) (PrimFloat.sub fone discount))
                (PrimFloat.add fone tax_rate).

(** The unit price of the line is the one the catalog holds for its
    product. *)
Definition priced_in (s : db) (l : billed_line) : Prop :=
  let '(product_id, _, price) := l in
  exists p, Sql.select_product product_id s = Some p /\ p_price p = price.

(** The rows [insert_bill_items] appends for the lines of bill [bill_id]
    when the counter of [bill_items] stands at [seq]. *)
Fixpoint number_bill_items (seq bill_id : Z) (lines : list billed_line)
    : list bill_item :=
  match lines with
  | [] => []
  | (product_id, quantity, price) :: rest =>
      mkBillItem (seq + 1) bill_id product_id quantity price
        :: number_bill_items (seq + 1) bill_id rest
  end.

(** ** Orders of valid shape *)

(** An order: product id and quantity per item, in request order. *)
Definition order : Type := list (Z * Z).

Definition items_of (o : order) : list item :=
  map (fun l => line (fst l) (snd l)) o.


(** Every item names a product of the catalog and a positive quantity. *)
Definition valid_items (s : db) (o : order) : bool :=
  forallb (fun l => is_some (Sql.select_product (fst l) s) && (0 <? snd l)) o.


(** ** A shop to run examples in *)

(** Two products: a widget at 10.0 with the batches B1 and B2 of 5 units
    each, added in that order, and a gadget at 2.5 created with
    [initial_quantity] 2. *)
Definition shop : db :=
  run [ ("", PostProducts (Some "widget") None (Some 10%float) None);
        ("", PostInventory (Some 1) (Some "B1") (Int 5));
        ("", PostInventory (Some 1) (Some "B2") (Int 5));
        ("", PostProducts (Some "gadget") (Some "small") (Some 2.5%float) (Some 2)) ]
      init_db.

(** ** Views of a bill's lines *)

(** The element of [items] that [GET /bills] builds for a stored line: one
    when the line's product is in the catalog, none otherwise. *)
Definition view_of_row (s : db) (bi : bill_item) : list item_view :=
  match Sql.select_product (bi_product_id bi) s with
  | Some p => [mkItemView (bi_quantity bi) (bi_price_at_purchase bi)
                          (p_name p) (p_description p)]
  | None => []
  end.

(** The same for a billed line. *)
Definition item_view_of (s : db) (l : billed_line) : list item_view :=
  let '(product_id, quantity, price) := l in
  match Sql.select_product product_id s with
  | Some p => [mkItemView quantity price (p_name p) (p_description p)]
  | None => []
  end.

Definition line_product (l : billed_line) : Z := fst (fst l).

Definition is_product_update (r : request) : bool :=
  match r with
  | PutProduct _ _ _ _ => true
  | _ => false
  end.


(** ** Vocabulary of the further properties *)

(** The row of [GET /inventory] for a batch: one when the batch's product
    is in the catalog, none otherwise. *)
Definition inventory_view_of (s : db) (i : batch) : list inventory_view :=
  match Sql.select_product (i_product_id i) s with
  | Some p => [mkInventoryView (i_id i) (p_name p) (p_description p)
                               (p_price p) (i_batch_number i) (i_quantity i)
                               (i_product_id i)]
  | None => []
  end.

(** The units an order asks of one product, over all its items. *)
Definition demand (product_id : Z) (o : order) : Z :=
  fold_right (fun l acc => if fst l =? product_id then snd l + acc else acc)
             0 o.

(** The columns of the UNIQUE constraint of [inventory]. *)
Definition batch_key (r : batch) : Z * string :=
  (i_product_id r, i_batch_number r).

(** The product ids the items of a request name. *)
Definition item_ids (items : list item) : list Z :=
  flat_map (fun it => match item_product_id it with
                      | Some id => [id]
                      | None => []
                      end) items.

(** ** Lists *)

Section ListFacts.

Context {A B : Type}.

Lemma Forall_filter_keep (P : A -> Prop) (f : A -> bool) (l : list A) :
  Forall P l -> Forall P (filter f l).
Proof.
  induction 1 as [|x l Hx Hl IH]; simpl; [constructor|].
  destruct (f x); auto.
Qed.

Lemma map_filter_incl (g : A -> B) (f : A -> bool) (l : list A) (y : B) :
  In y (map g (filter f l)) -> In y (map g l).
Proof.
  rewrite !in_map_iff. intros (x & Hx & Hin).
  apply filter_In in Hin. exists x. tauto.
Qed.

Lemma NoDup_map_filter (g : A -> B) (f : A -> bool) (l : list A) :
  NoDup (map g l) -> NoDup (map g (filter f l)).
Proof.
  induction l as [|x l IH]; simpl; intros H; [constructor|].
  inversion H as [|? ? Hnin Hnd]; subst.
  destruct (f x); simpl; auto.
  constructor; auto.
  intros Hin. apply Hnin. eapply map_filter_incl; eauto.
Qed.

Lemma NoDup_snoc (l : list A) (x : A) :
  NoDup l -> ~ In x l -> NoDup (l ++ [x]).
Proof.
  intros Hl Hx. induction Hl as [|y l Hy Hl IH]; simpl.
  - constructor; [intros []|constructor].
  - constructor.
    + rewrite in_app_iff. simpl. intros [H|[H|[]]]; [tauto|].
      subst. apply Hx. now left.
    + apply IH. intros H. apply Hx. now right.
Qed.

Lemma NoDup_map_inj (g : A -> B) (l : list A) (x y : A) :
  NoDup (map g l) -> In x l -> In y l -> g x = g y -> x = y.
Proof.
  induction l as [|z l IH]; simpl; intros Hnd Hx Hy Heq; [tauto|].
  inversion Hnd as [|? ? Hnin Hnd']; subst.
  destruct Hx as [Hx|Hx], Hy as [Hy|Hy]; subst; auto.
  - exfalso. apply Hnin. rewrite Heq. now apply in_map.
  - exfalso. apply Hnin. rewrite <- Heq. now apply in_map.
Qed.

Lemma map_update_same (g : A -> B) (h : A -> A) (c : A -> bool) (l : list A) :
  (forall x, g (h x) = g x) ->
  map g (map (fun x => if c x then h x else x) l) = map g l.
Proof.
  intros Hg. rewrite map_map. apply map_ext.
  intros x. destruct (c x); auto.
Qed.

End ListFacts.

Lemma nodupb_NoDup (l : list Z) : nodupb l = true <-> NoDup l.
Proof.
  induction l as [|x l IH]; simpl.
  - split; [constructor|reflexivity].
  - rewrite andb_true_iff, negb_true_iff, IH. split.
    + intros [Hx Hl]. constructor; auto.
      intros Hin.
      assert (existsb (Z.eqb x) l = true) as E.
      { apply existsb_exists. exists x. split; auto. apply Z.eqb_refl. }
      congruence.
    + intros H. inversion H as [|? ? Hnin Hnd]; subst. split; auto.
      destruct (existsb (Z.eqb x) l) eqn:E; auto.
      apply existsb_exists in E. destruct E as (y & Hy & Hxy).
      apply Z.eqb_eq in Hxy. subst. tauto.
Qed.

Lemma ids_okb_spec (ids : list Z) (seq : Z) :
  ids_okb ids seq = true <-> ids_ok ids seq.
Proof.
  unfold ids_okb, ids_ok.
  rewrite andb_true_iff, nodupb_NoDup, forallb_forall, Forall_forall.
  split; intros [H1 H2]; split; auto; intros x Hx; specialize (H2 x Hx).
  - apply andb_true_iff in H2. destruct H2 as [H2 H3].
    apply Z.ltb_lt in H2. apply Z.leb_le in H3. lia.
  - apply andb_true_iff. split; [apply Z.ltb_lt|apply Z.leb_le]; lia.
Qed.

Lemma wf_db_spec (s : db) : wf_db s = true <-> wf s.
Proof.
  unfold wf_db. rewrite !andb_true_iff, !ids_okb_spec, !Z.leb_le.
  rewrite !forallb_forall.
  split.
  - intros [[[[[[[[H1 H2] H3] H4] H5] H6] H7] H8] H9].
    constructor; auto; apply Forall_forall; intros r Hr.
    + apply Z.leb_le. auto.
    + apply Z.ltb_lt. auto.
    + apply Z.leb_le. auto.
  - intros [H1 H2 H3 H4 H5 H6 H7 H8 H9].
    rewrite Forall_forall in H7, H8, H9. destruct H4, H5, H6.
    split; [split; [split; [repeat split; auto|]|]|]; intros r Hr.
    + apply Z.leb_le. auto.
    + apply Z.ltb_lt. auto.
    + apply Z.leb_le. auto.
Qed.

Lemma wf_init_db : wf_db init_db = true.
Proof. reflexivity. Qed.

Lemma Forall_map_update {A : Type} (P : A -> Prop) (h : A -> A)
    (c : A -> bool) (l : list A) :
  (forall x, P x -> c x = true -> P (h x)) ->
  Forall P l -> Forall P (map (fun x => if c x then h x else x) l).
Proof.
  intros Hh. induction 1 as [|x l Hx Hl IH]; simpl; constructor; auto.
  destruct (c x) eqn:E; auto.
Qed.

Lemma ids_ok_snoc (ids : list Z) (seq : Z) :
  0 <= seq -> ids_ok ids seq -> ids_ok (ids ++ [seq + 1]) (seq + 1).
Proof.
  intros Hseq [Hnd Hb]. split.
  - apply NoDup_snoc; auto. intros Hin.
    rewrite Forall_forall in Hb. specialize (Hb _ Hin). lia.
  - apply Forall_app. split.
    + eapply Forall_impl; [|exact Hb]. simpl. intros; lia.
    + constructor; [lia|constructor].
Qed.

Lemma ids_ok_filter {A : Type} (g : A -> Z) (f : A -> bool) (l : list A)
    (seq : Z) :
  ids_ok (map g l) seq -> ids_ok (map g (filter f l)) seq.
Proof.
  intros [Hnd Hb]. split.
  - now apply NoDup_map_filter.
  - rewrite Forall_forall in *. intros y Hy. apply Hb.
    eapply map_filter_incl; eauto.
Qed.

(** ** The statements preserve the invariant *)

Section Preservation.

Variable s : db.
Hypothesis Hwf : wf s.

Lemma wf_insert_user u p s' : Sql.insert_user u p s = Some s' -> wf s'.
Proof.
  unfold Sql.insert_user. destruct (existsb _ _); [discriminate|].
  intros [= <-]. destruct Hwf as [Ws1 Ws2 Ws3 Wp Wi Wb Wr Wq Wl]. constructor; auto.
Qed.

Lemma wf_insert_product n d p q s' id :
  Sql.insert_product n d p q s = Some (s', id) ->
  wf s' /\ id = seq_products s + 1 /\ seq_products s' = id.
Proof.
  unfold Sql.insert_product. destruct (existsb _ _); [discriminate|].
  intros [= <- <-]. split; auto.
  destruct Hwf as [Ws1 Ws2 Ws3 Wp Wi Wb Wr Wq Wl]. constructor; simpl; auto; try lia.
  - rewrite map_app. simpl. now apply ids_ok_snoc.
  - eapply Forall_impl; [|exact Wr]. simpl. intros; lia.
Qed.

Lemma wf_update_product n d p id s' rows :
  Sql.update_product n d p id s = Some (s', rows) -> wf s'.
Proof.
  unfold Sql.update_product. destruct (_ && _); [discriminate|].
  intros [= <- _]. destruct Hwf as [Ws1 Ws2 Ws3 Wp Wi Wb Wr Wq Wl]. constructor; simpl; auto.
  rewrite map_update_same with (g := p_id); auto.
Qed.

Lemma wf_delete_product id :
  wf (fst (Sql.delete_product id (get_db_connection s))).
Proof.
  destruct Hwf as [Ws1 Ws2 Ws3 Wp Wi Wb Wr Wq Wl]. constructor; simpl; auto.
  now apply ids_ok_filter.
Qed.

Lemma wf_insert_inventory pid b q :
  pid <= seq_products s -> 0 < q -> wf (Sql.insert_inventory pid b q s).
Proof.
  intros Hp Hq. destruct Hwf as [Ws1 Ws2 Ws3 Wp Wi Wb Wr Wq Wl]. constructor; simpl; auto; try lia.
  - rewrite map_app. simpl. now apply ids_ok_snoc.
  - apply Forall_app. split; auto.
  - apply Forall_app. split; auto.
Qed.

Lemma wf_add_inventory_quantity delta pid b :
  0 <= delta -> wf (Sql.add_inventory_quantity delta pid b s).
Proof.
  intros Hd. destruct Hwf as [Ws1 Ws2 Ws3 Wp Wi Wb Wr Wq Wl]. constructor; simpl; auto.
  - rewrite map_update_same with (g := i_id); auto.
  - apply Forall_map_update; auto.
  - apply Forall_map_update; auto. simpl. intros; lia.
Qed.

Lemma wf_update_inventory_quantity q id :
  0 < q -> wf (Sql.update_inventory_quantity q id s).
Proof.
  intros Hq. destruct Hwf as [Ws1 Ws2 Ws3 Wp Wi Wb Wr Wq Wl]. constructor; simpl; auto.
  - rewrite map_update_same with (g := i_id); auto.
  - apply Forall_map_update; auto.
  - apply Forall_map_update; auto.
Qed.

Lemma wf_delete_inventory id : wf (Sql.delete_inventory id s).
Proof.
  destruct Hwf as [Ws1 Ws2 Ws3 Wp Wi Wb Wr Wq Wl]. constructor; simpl; auto.
  - now apply ids_ok_filter.
  - now apply Forall_filter_keep.
  - now apply Forall_filter_keep.
Qed.

Lemma wf_insert_bill c date total d t :
  wf (fst (Sql.insert_bill c date total d t s)).
Proof.
  destruct Hwf as [Ws1 Ws2 Ws3 Wp Wi Wb Wr Wq Wl]. constructor; simpl; auto; try lia.
  - rewrite map_app. simpl. now apply ids_ok_snoc.
  - eapply Forall_impl; [|exact Wl]. simpl. intros; lia.
Qed.

Lemma wf_insert_bill_item bid pid q p :
  bid <= seq_bills s -> wf (Sql.insert_bill_item bid pid q p s).
Proof.
  intros Hbid.
  destruct Hwf as [Ws1 Ws2 Ws3 Wp Wi Wb Wr Wq Wl]. constructor; simpl; auto.
  apply Forall_app. split; auto.
Qed.

End Preservation.

(** ** The deduction loops *)

Lemma with_inventory_id (s : db) : with_inventory (inventory s) s = s.
Proof. now destruct s. Qed.

Lemma apply_deductions_rows (ds : list (Z * Z)) (w : db) :
  apply_deductions ds w = with_inventory (deduct_rows ds (inventory w)) w.
Proof.
  unfold apply_deductions, deduct_rows. revert w.
  induction ds as [|[new_q b_id] ds IH]; intros w; simpl.
  - now rewrite with_inventory_id.
  - rewrite IH.
    replace (if new_q =? 0 then Sql.delete_inventory b_id w
             else Sql.update_inventory_quantity new_q b_id w)
      with (with_inventory (deduct_row (new_q, b_id) (inventory w)) w).
    + reflexivity.
    + unfold deduct_row. simpl. destruct (new_q =? 0); reflexivity.
Qed.

Lemma deduct_row_origin (d : Z * Z) (inv : list batch) (r : batch) :
  In r (deduct_row d inv) ->
  exists r0, In r0 inv /\ i_id r0 = i_id r
             /\ i_product_id r0 = i_product_id r
             /\ (r = r0 \/ i_quantity r = fst d /\ fst d <> 0).
Proof.
  unfold deduct_row. destruct (fst d =? 0) eqn:E.
  - intros H. apply filter_In in H. exists r. tauto.
  - intros H. apply in_map_iff in H. destruct H as (r0 & Hr & Hin).
    exists r0. apply Z.eqb_neq in E.
    destruct (i_id r0 =? snd d); subst; simpl; intuition auto.
Qed.

Lemma deduct_row_ids (d : Z * Z) (inv : list batch) (seq : Z) :
  ids_ok (map i_id inv) seq -> ids_ok (map i_id (deduct_row d inv)) seq.
Proof.
  unfold deduct_row. destruct (fst d =? 0).
  - apply ids_ok_filter.
  - now rewrite map_update_same with (g := i_id).
Qed.

Lemma deduct_row_Forall (P : batch -> Prop) (d : Z * Z) (inv : list batch) :
  (forall r, P r -> fst d <> 0 -> P (set_quantity (fst d) r)) ->
  Forall P inv -> Forall P (deduct_row d inv).
Proof.
  intros HP H. unfold deduct_row. destruct (fst d =? 0) eqn:E.
  - now apply Forall_filter_keep.
  - apply Z.eqb_neq in E. apply Forall_map_update; auto.
Qed.

Lemma deduct_rows_ids (ds : list (Z * Z)) (inv : list batch) (seq : Z) :
  ids_ok (map i_id inv) seq -> ids_ok (map i_id (deduct_rows ds inv)) seq.
Proof.
  unfold deduct_rows. revert inv.
  induction ds as [|d ds IH]; intros inv H; simpl; auto.
  apply IH. now apply deduct_row_ids.
Qed.

Lemma deduct_rows_Forall (P : batch -> Prop) (ds : list (Z * Z))
    (inv : list batch) :
  (forall r q, P r -> 0 < q -> P (set_quantity q r)) ->
  Forall (fun d => 0 <= fst d) ds ->
  Forall P inv -> Forall P (deduct_rows ds inv).
Proof.
  intros HP Hds. unfold deduct_rows. revert inv.
  induction Hds as [|d ds Hd Hds IH]; intros inv H; simpl; auto.
  apply IH. apply deduct_row_Forall; auto.
  intros r Hr Hz. apply HP; auto. lia.
Qed.

(** No element of the plan carries a negative quantity. *)
Lemma deduct_batches_nonneg (bs : list batch) (q : Z) :
  Forall (fun d => 0 <= fst d) (fst (deduct_batches bs q)).
Proof.
  revert q. induction bs as [|b bs IH]; intros q; simpl; [constructor|].
  destruct (q <=? 0); simpl; [constructor|].
  destruct (i_quantity b >=? q) eqn:E.
  - specialize (IH 0). destruct (deduct_batches bs 0). simpl in *.
    constructor; auto. simpl. apply Z.geb_le in E. lia.
  - specialize (IH (q - i_quantity b)).
    destruct (deduct_batches bs (q - i_quantity b)). simpl in *.
    constructor; auto. simpl. lia.
Qed.

Lemma sum_quantities_cons (b : batch) (l : list batch) :
  sum_quantities (b :: l) = i_quantity b + sum_quantities l.
Proof. reflexivity. Qed.

Arguments sum_quantities : simpl never.

Lemma sum_quantities_app (l1 l2 : list batch) :
  sum_quantities (l1 ++ l2) = sum_quantities l1 + sum_quantities l2.
Proof.
  induction l1 as [|b l1 IH]; simpl.
  - change (sum_quantities []) with 0. lia.
  - rewrite !sum_quantities_cons, IH. lia.
Qed.

(** The plan of a walk that starts with a positive need, over batches of
    positive quantity: a shortfall exactly when the need exceeds the total;
    otherwise the leading batches [gone] are emptied and the batch [b] that
    covers what is still needed gives it. *)
Lemma deduct_batches_spec (bs : list batch) (q : Z) :
  0 < q ->
  Forall (fun r => 0 < i_quantity r) bs ->
  (sum_quantities bs < q /\
   snd (deduct_batches bs q) = q - sum_quantities bs) \/
  (exists gone b rest,
     bs = gone ++ b :: rest /\
     sum_quantities gone < q <= sum_quantities gone + i_quantity b /\
     deduct_batches bs q =
       (map (fun g => (0, i_id g)) gone
          ++ [(i_quantity b - (q - sum_quantities gone), i_id b)], 0)).
Proof.
  intros Hq Hpos. revert q Hq.
  induction Hpos as [|b bs Hb Hpos IH]; intros q Hq; simpl.
  - left. change (sum_quantities []) with 0. split; lia.
  - rewrite sum_quantities_cons.
    destruct (q <=? 0) eqn:E0; [apply Z.leb_le in E0; lia|].
    destruct (i_quantity b >=? q) eqn:E.
    + right. exists [], b, bs. apply Z.geb_le in E.
      change (sum_quantities []) with 0. simpl.
      split; [reflexivity|]. split; [lia|].
      replace (q - 0) with q by lia.
      destruct bs as [|b' bs']; reflexivity.
    + assert (i_quantity b < q) as Hlt.
      { destruct (Z.geb_spec (i_quantity b) q); [discriminate|lia]. }
      destruct (IH (q - i_quantity b))
        as [[H1 H2]|(gone & b' & rest & H1 & H2 & H3)]; [lia| |].
      * left. destruct (deduct_batches bs (q - i_quantity b)).
        simpl in *. split; lia.
      * right. exists (b :: gone), b', rest. subst bs.
        rewrite sum_quantities_cons. simpl.
        split; [reflexivity|]. split; [lia|].
        rewrite H3.
        replace (q - (i_quantity b + sum_quantities gone))
          with (q - i_quantity b - sum_quantities gone) by lia.
        reflexivity.
Qed.

(** ** [ORDER BY id ASC] *)

Lemma insert_by_id_perm (r : batch) (l : list batch) :
  Permutation (Sql.insert_by_id r l) (r :: l).
Proof.
  induction l as [|x l IH]; simpl; auto.
  destruct (i_id r <=? i_id x); auto.
  rewrite IH. apply perm_swap.
Qed.

Lemma order_by_id_perm (l : list batch) : Permutation (Sql.order_by_id l) l.
Proof.
  induction l as [|x l IH]; simpl; auto.
  rewrite insert_by_id_perm. now constructor.
Qed.

Lemma insert_by_id_sorted (r : batch) (l : list batch) :
  Sorted (fun x y => i_id x <= i_id y) l ->
  Sorted (fun x y => i_id x <= i_id y) (Sql.insert_by_id r l).
Proof.
  induction 1 as [|x l Hl IH Hx]; simpl.
  - repeat constructor.
  - destruct (Z.leb_spec (i_id r) (i_id x)).
    + repeat constructor; auto.
    + constructor; auto.
      destruct l as [|y l]; simpl in *.
      * constructor. lia.
      * destruct (Z.leb_spec (i_id r) (i_id y)); constructor; try lia.
        now inversion Hx.
Qed.

Lemma order_by_id_sorted (l : list batch) :
  Sorted (fun x y => i_id x <= i_id y) (Sql.order_by_id l).
Proof.
  induction l as [|x l IH]; simpl; [constructor|].
  now apply insert_by_id_sorted.
Qed.

Lemma sorted_distinct_ascending (l : list batch) :
  Sorted (fun x y => i_id x <= i_id y) l ->
  NoDup (map i_id l) ->
  StronglySorted (fun x y => i_id x < i_id y) l.
Proof.
  intros Hs Hnd. apply Sorted_StronglySorted in Hs.
  - induction Hs as [|x l Hl IH Hx]; constructor.
    + apply IH. now inversion Hnd.
    + inversion Hnd as [|? ? Hnin _]; subst.
      rewrite Forall_forall in *. intros y Hy.
      specialize (Hx y Hy).
      assert (i_id x <> i_id y).
      { intros E. apply Hnin. rewrite E. now apply in_map. }
      lia.
  - intros x y z. lia.
Qed.

Lemma sum_quantities_perm (l l' : list batch) :
  Permutation l l' -> sum_quantities l = sum_quantities l'.
Proof.
  induction 1; rewrite ?sum_quantities_cons; lia.
Qed.

Lemma select_batches_perm (pid : Z) (s : db) :
  Permutation (Sql.select_batches pid s) (batches_of pid s).
Proof. apply order_by_id_perm. Qed.

Lemma select_batches_stock (pid : Z) (s : db) :
  sum_quantities (Sql.select_batches pid s) = stock pid s.
Proof. apply sum_quantities_perm, select_batches_perm. Qed.

Lemma select_batches_In (pid : Z) (s : db) (r : batch) :
  In r (Sql.select_batches pid s) <->
  In r (inventory s) /\ i_product_id r = pid.
Proof.
  rewrite (Permutation_in' (eq_refl r) (select_batches_perm pid s)).
  unfold batches_of. rewrite filter_In, Z.eqb_eq. tauto.
Qed.

Lemma select_batches_ascending (pid : Z) (s : db) :
  wf s ->
  StronglySorted (fun x y => i_id x < i_id y) (Sql.select_batches pid s).
Proof.
  intros Hwf. apply sorted_distinct_ascending.
  - apply order_by_id_sorted.
  - eapply Permutation_NoDup.
    + apply Permutation_map. symmetry. apply select_batches_perm.
    + apply NoDup_map_filter. apply Hwf.
Qed.

(** ** The plan carried out on the table *)

Lemma filter_filter_and {A : Type} (f g : A -> bool) (l : list A) :
  filter f (filter g l) = filter (fun x => g x && f x) l.
Proof.
  induction l as [|x l IH]; simpl; auto.
  destruct (g x); simpl; rewrite ?IH; auto.
Qed.

Lemma deduct_rows_app (d1 d2 : list (Z * Z)) (inv : list batch) :
  deduct_rows (d1 ++ d2) inv = deduct_rows d2 (deduct_rows d1 inv).
Proof. unfold deduct_rows. apply fold_left_app. Qed.

Lemma deduct_rows_gone (gone : list batch) (inv : list batch) :
  deduct_rows (map (fun g => (0, i_id g)) gone) inv =
  filter (fun r => negb (existsb (fun g => i_id r =? i_id g) gone)) inv.
Proof.
  revert inv. induction gone as [|g gone IH]; intros inv; simpl.
  - induction inv as [|r inv IHinv]; simpl; congruence.
  - unfold deduct_rows in *. simpl. rewrite IH.
    unfold deduct_row. simpl. rewrite filter_filter_and.
    apply filter_ext. intros r. now rewrite negb_orb.
Qed.

Lemma deduct_rows_plan (gone : list batch) (b : batch) (remaining : Z)
    (inv : list batch) :
  deduct_rows (map (fun g => (0, i_id g)) gone ++ [(remaining, i_id b)]) inv =
  flat_map (fifo_outcome gone b remaining) inv.
Proof.
  rewrite deduct_rows_app, deduct_rows_gone.
  unfold deduct_rows, deduct_row, fifo_outcome. simpl.
  induction inv as [|r inv IH]; simpl.
  - now destruct (remaining =? 0).
  - destruct (existsb _ gone); simpl; auto.
    destruct (remaining =? 0) eqn:E; simpl in *.
    + destruct (i_id r =? i_id b); simpl; rewrite IH; auto.
    + destruct (i_id r =? i_id b); simpl; rewrite IH; auto.
Qed.

(** ** One item of a bill *)

Lemma process_item_eval (pid q : Z) (p : product) (w : db) (tot : float)
    (acc : list billed_line) :
  pid <> 0 -> 0 < q -> Sql.select_product pid w = Some p ->
  process_item (line pid q) (w, tot, acc) =
  if snd (deduct_batches (Sql.select_batches pid w) q) >? 0
  then ValueError (insufficient_stock pid)
  else Ok (with_inventory
             (deduct_rows (fst (deduct_batches (Sql.select_batches pid w) q))
                          (inventory w)) w,
           PrimFloat.add tot (PrimFloat.mul (p_price p) (float_of_int q)),
           acc ++ [(pid, q, p_price p)]).
Proof.
  intros Hpid Hq Hp. unfold process_item, line. cbn [item_product_id item_quantity].
  unfold truthy_int, is_present.
  apply Z.eqb_neq in Hpid. rewrite Hpid. cbn [negb andb].
  destruct (Z.leb_spec q 0); [lia|].
  rewrite Hp.
  destruct (deduct_batches (Sql.select_batches pid w) q) as [ded needed].
  cbn [fst snd]. rewrite apply_deductions_rows. reflexivity.
Qed.

Lemma process_item_inv (it : item) (w : db) (tot : float)
    (acc : list billed_line) (w' : db) (tot' : float)
    (acc' : list billed_line) :
  process_item it (w, tot, acc) = Ok (w', tot', acc') ->
  exists pid q p,
    it = line pid q /\ pid <> 0 /\ 0 < q /\
    Sql.select_product pid w = Some p /\
    snd (deduct_batches (Sql.select_batches pid w) q) <= 0 /\
    w' = with_inventory
           (deduct_rows (fst (deduct_batches (Sql.select_batches pid w) q))
                        (inventory w)) w /\
    tot' = PrimFloat.add tot (PrimFloat.mul (p_price p) (float_of_int q)) /\
    acc' = acc ++ [(pid, q, p_price p)].
Proof.
  destruct it as [[pid|] [| |q]]; unfold process_item;
    cbn [item_product_id item_quantity truthy_int is_present];
    rewrite ?andb_false_r; cbn [negb]; try discriminate;
    try (destruct (pid =? 0); discriminate).
  destruct (Z.eqb_spec pid 0) as [|Hpid]; [discriminate|]. cbn [negb andb].
  destruct (Z.leb_spec q 0) as [|Hq]; [discriminate|].
  destruct (Sql.select_product pid w) as [p|] eqn:Hp; [|discriminate].
  destruct (deduct_batches (Sql.select_batches pid w) q) as [ded needed] eqn:Hd.
  destruct (Z.gtb_spec needed 0) as [|Hn]; [discriminate|].
  intros [= <- <- <-]. exists pid, q, p.
  rewrite apply_deductions_rows, Hd. cbn [fst snd]. repeat split; auto.
Qed.

Lemma process_item_wf it w tot acc w' tot' acc' :
  wf w -> process_item it (w, tot, acc) = Ok (w', tot', acc') -> wf w'.
Proof.
  intros Hwf H. apply process_item_inv in H.
  destruct H as (pid & q & p & _ & _ & _ & _ & _ & -> & _).
  destruct Hwf as [Ws1 Ws2 Ws3 Wp Wi Wb Wr Wq Wl]. constructor; simpl; auto.
  - now apply deduct_rows_ids.
  - apply deduct_rows_Forall; auto. apply deduct_batches_nonneg.
  - apply deduct_rows_Forall; auto. apply deduct_batches_nonneg.
Qed.


(** A valid item on a well-formed database: rejected exactly when the
    product's stock is short; otherwise the table changes as
    [fifo_outcome] says. *)
Lemma process_item_cases (pid q : Z) (p : product) (w : db) (tot : float)
    (acc : list billed_line) :
  wf w -> 0 < q -> Sql.select_product pid w = Some p ->
  (stock pid w < q /\
   process_item (line pid q) (w, tot, acc) = ValueError (insufficient_stock pid))
  \/
  (q <= stock pid w /\
   exists gone b rest,
     Sql.select_batches pid w = gone ++ b :: rest /\
     sum_quantities gone < q <= sum_quantities gone + i_quantity b /\
     process_item (line pid q) (w, tot, acc) =
       Ok (with_inventory
             (flat_map (fifo_outcome gone b
                          (i_quantity b - (q - sum_quantities gone)))
                       (inventory w)) w,
           PrimFloat.add tot (PrimFloat.mul (p_price p) (float_of_int q)),
           acc ++ [(pid, q, p_price p)])).
Proof.
  intros Hwf Hq Hp.
  assert (pid <> 0) as Hpid.
  { unfold Sql.select_product in Hp. apply find_some in Hp.
    destruct Hp as [Hin E]. apply Z.eqb_eq in E.
    destruct Hwf as [_ _ _ [_ Wp] _ _ _ _ _].
    rewrite Forall_forall in Wp.
    specialize (Wp (p_id p) (in_map _ _ _ Hin)). lia. }
  rewrite (process_item_eval pid q p w tot acc Hpid Hq Hp).
  assert (Forall (fun r => 0 < i_quantity r) (Sql.select_batches pid w)) as Hpos.
  { apply Forall_forall. intros r Hr. apply select_batches_In in Hr.
    destruct Hwf as [_ _ _ _ _ _ _ Wq _]. rewrite Forall_forall in Wq.
    apply Wq. tauto. }
  destruct (deduct_batches_spec _ q Hq Hpos)
    as [[H1 H2]|(gone & b & rest & H1 & H2 & H3)].
  - left. rewrite select_batches_stock in *. split; auto.
    rewrite H2. destruct (Z.gtb_spec (q - stock pid w) 0); [auto|lia].
  - right. rewrite <- select_batches_stock. split.
    + rewrite H1, sum_quantities_app, sum_quantities_cons.
      assert (0 <= sum_quantities rest).
      { rewrite H1 in Hpos. apply Forall_app in Hpos.
        destruct Hpos as [_ Hpos]. inversion Hpos as [|? ? _ Hrest]; subst.
        clear - Hrest. induction Hrest as [|x l Hx Hl IH].
        - now change (sum_quantities []) with 0.
        - rewrite sum_quantities_cons. lia. }
      lia.
    + exists gone, b, rest. repeat split; try tauto.
      rewrite H3. cbn [fst snd]. rewrite deduct_rows_plan. reflexivity.
Qed.

(** ** All items of a bill *)

Arguments process_item : simpl never.

Lemma process_items_inv (items : list item) (w : db) (tot : float)
    (acc : list billed_line) (w' : db) (tot' : float) (acc' : list billed_line) :
  process_items items (w, tot, acc) = Ok (w', tot', acc') ->
  exists lines : list billed_line,
    items = map item_of lines /\
    Forall (priced_in w) lines /\
    tot' = fold_left
             (fun t l => let '(_, quantity, price) := (l : billed_line) in
                PrimFloat.add t (PrimFloat.mul price (float_of_int quantity)))
             lines tot /\
    acc' = acc ++ lines /\
    exists inv', w' = with_inventory inv' w.
Proof.
  revert w tot acc. induction items as [|it items IH]; intros w tot acc; simpl.
  - intros [= <- <- <-]. exists []. simpl. rewrite app_nil_r.
    repeat split; auto. exists (inventory w). now rewrite with_inventory_id.
  - destruct (process_item it (w, tot, acc)) as [[[w1 tot1] acc1]|] eqn:E;
      [|intros; discriminate].
    intros H. apply IH in H.
    destruct H as (lines & -> & Hp & -> & -> & inv' & ->).
    apply process_item_inv in E.
    destruct E as (pid & q & p & -> & _ & _ & Hsel & _ & -> & -> & ->).
    exists ((pid, q, p_price p) :: lines). simpl.
    split; [reflexivity|]. split; [|split; [reflexivity|split]].
    + constructor; [exists p; auto|].
      eapply Forall_impl; [|exact Hp]. intros [[a b] c]. simpl. auto.
    + now rewrite <- app_assoc.
    + eexists. reflexivity.
Qed.

Lemma process_items_wf (items : list item) (w : db) (tot : float)
    (acc : list billed_line) (w' : db) (tot' : float) (acc' : list billed_line) :
  wf w -> process_items items (w, tot, acc) = Ok (w', tot', acc') -> wf w'.
Proof.
  revert w tot acc. induction items as [|it items IH]; intros w tot acc Hwf; simpl.
  - now intros [= <- <- <-].
  - destruct (process_item it (w, tot, acc)) as [[[w1 tot1] acc1]|] eqn:E;
      [|intros; discriminate].
    apply IH. eapply process_item_wf; eauto.
Qed.


Lemma filter_none {A : Type} (f : A -> bool) (l : list A) :
  (forall x, In x l -> f x = false) -> filter f l = [].
Proof.
  induction l as [|x l IH]; simpl; intros H; auto.
  rewrite (H x) by auto. apply IH. auto.
Qed.

(** Billing one product leaves the batches of every other product alone. *)
Lemma fifo_outcome_other (w : db) (pid pid' : Z) (gone : list batch)
    (b : batch) (rest : list batch) (remaining : Z) :
  wf w -> Sql.select_batches pid w = gone ++ b :: rest -> pid' <> pid ->
  batches_of pid'
    (with_inventory (flat_map (fifo_outcome gone b remaining) (inventory w)) w)
  = batches_of pid' w.
Proof.
  intros Hwf Hsel Hne. unfold batches_of. simpl.
  assert (forall r, In r (inventory w) -> i_product_id r = pid' ->
                    fifo_outcome gone b remaining r = [r]) as Hkeep.
  { intros r Hr Hprod.
    assert (forall g, In g (gone ++ b :: rest) -> i_id r <> i_id g) as Hid.
    { intros g Hg E. rewrite <- Hsel in Hg. apply select_batches_In in Hg.
      destruct Hg as [Hg Hpg].
      assert (r = g) by (eapply NoDup_map_inj; eauto; apply Hwf).
      subst. congruence. }
    unfold fifo_outcome.
    destruct (existsb _ gone) eqn:E.
    - apply existsb_exists in E. destruct E as (g & Hg & E).
      apply Z.eqb_eq in E. exfalso. apply (Hid g); auto.
      apply in_app_iff. now left.
    - destruct (Z.eqb_spec (i_id r) (i_id b)) as [E'|]; auto.
      exfalso. apply (Hid b); auto. apply in_app_iff. right. now left. }
  assert (forall r r', In r' (fifo_outcome gone b remaining r) ->
                       i_product_id r' = i_product_id r) as Hprod.
  { intros r r'. unfold fifo_outcome.
    destruct (existsb _ gone); [intros []|].
    destruct (i_id r =? i_id b); [destruct (remaining =? 0); [intros []|]|];
      simpl; intros [<-|[]]; reflexivity. }
  induction (inventory w) as [|r inv IH]; simpl; auto.
  rewrite filter_app, IH by (intros; apply Hkeep; simpl; auto).
  destruct (Z.eqb_spec (i_product_id r) pid') as [E|E].
  - rewrite Hkeep by (simpl; auto). simpl.
    apply Z.eqb_eq in E. now rewrite E.
  - replace (filter _ (fifo_outcome gone b remaining r)) with (@nil batch); auto.
    symmetry. apply filter_none. intros r' Hr'. apply Hprod in Hr'.
    apply Z.eqb_neq. congruence.
Qed.



(** ** [generate_bill] as a whole *)

Lemma insert_bill_items_spec (bill_id : Z) (lines : list billed_line) (w : db) :
  insert_bill_items bill_id lines w =
  mkDb (users w) (products w) (inventory w) (bills w)
       (bill_items w ++ number_bill_items (seq_bill_items w) bill_id lines)
       (seq_users w) (seq_products w) (seq_inventory w) (seq_bills w)
       (seq_bill_items w + Z.of_nat (List.length lines)).
Proof.
  unfold insert_bill_items. revert w.
  induction lines as [|[[pid q] price] lines IH]; intros w.
  - simpl. rewrite app_nil_r, Z.add_0_r. now destruct w.
  - cbn [fold_left]. rewrite IH. cbn -[Z.of_nat Z.add].
    rewrite <- app_assoc. f_equal. lia.
Qed.

(** A request answered with 201, taken apart. *)
Lemma generate_bill_201 now c items d t s s' r :
  generate_bill now c items d t s = (s', r) -> status r = 201 ->
  exists customer lines inv',
    c = Some customer /\ items = Items (map item_of lines) /\
    Forall (priced_in s) lines /\
    process_items (map item_of lines) (s, fzero, [])
      = Ok (with_inventory inv' s, subtotal lines, lines) /\
    let discount := get_default d fzero in
    let tax_rate := get_default t fzero in
    let total := bill_total lines discount tax_rate in
    let bill_id := seq_bills s + 1 in
    r = (201, BillGenerated "Bill generated successfully" bill_id total) /\
    s' = mkDb (users s) (products s) inv'
              (bills s ++ [mkBill bill_id customer now total discount tax_rate])
              (bill_items s
                 ++ number_bill_items (seq_bill_items s) bill_id lines)
              (seq_users s) (seq_products s) (seq_inventory s) bill_id
              (seq_bill_items s + Z.of_nat (List.length lines)).
Proof.
  unfold generate_bill.
  destruct (negb _); [intros [= <- <-]; discriminate|].
  destruct c as [customer|]; [|intros [= <- <-]; discriminate].
  destruct items as [|?|l]; try (intros [= <- <-]; discriminate).
  destruct (process_items l (s, fzero, [])) as [[[w tot] acc]|] eqn:E;
    [|intros [= <- <-]; discriminate].
  pose proof (process_items_inv _ _ _ _ _ _ _ E)
    as (lines & -> & Hp & -> & Hacc & inv' & ->).
  simpl in Hacc. subst acc.
  cbn [Sql.insert_bill]. rewrite insert_bill_items_spec.
  intros [= <- <-] _. exists customer, lines, inv'.
  repeat split; auto.
Qed.

(** A request answered with anything else leaves the database as it was. *)
Lemma generate_bill_rollback now c items d t s s' r :
  generate_bill now c items d t s = (s', r) -> status r <> 201 -> s' = s.
Proof.
  unfold generate_bill.
  destruct (negb _); [now intros [= <- <-]|].
  destruct c as [customer|]; [|now intros [= <- <-]].
  destruct items as [|?|l]; try (now intros [= <- <-]).
  destruct (process_items l (s, fzero, [])) as [[[w tot] acc]|];
    [|now intros [= <- <-]].
  cbn [Sql.insert_bill]. intros [= <- <-]. simpl. congruence.
Qed.

(** ** Every route preserves the invariant *)

Lemma wf_insert_bill_items (bill_id : Z) (lines : list billed_line) (w : db) :
  wf w -> bill_id <= seq_bills w -> wf (insert_bill_items bill_id lines w).
Proof.
  unfold insert_bill_items. revert w.
  induction lines as [|[[pid q] price] lines IH]; intros w Hwf Hb; simpl; auto.
  apply IH; [now apply wf_insert_bill_item|exact Hb].
Qed.

Lemma generate_bill_wf now c items d t s :
  wf s -> wf (fst (generate_bill now c items d t s)).
Proof.
  intros Hwf. unfold generate_bill.
  destruct (negb _); auto.
  destruct c as [customer|]; auto.
  destruct items as [|?|l]; auto.
  destruct (process_items l (s, fzero, [])) as [[[w tot] acc]|] eqn:E; auto.
  apply process_items_wf in E; auto.
  cbn [Sql.insert_bill fst].
  apply wf_insert_bill_items; [|simpl; lia].
  apply (wf_insert_bill w E).
Qed.

Lemma select_product_bound (pid : Z) (s : db) (p : product) :
  wf s -> Sql.select_product pid s = Some p ->
  p_id p = pid /\ 0 < pid <= seq_products s /\ In p (products s).
Proof.
  intros Hwf H. unfold Sql.select_product in H. apply find_some in H.
  destruct H as [Hin E]. apply Z.eqb_eq in E.
  destruct Hwf as [_ _ _ [_ Wp] _ _ _ _ _].
  rewrite Forall_forall in Wp.
  specialize (Wp (p_id p) (in_map _ _ _ Hin)). subst. auto.
Qed.

Lemma select_batch_In (pid : Z) (bn : string) (s : db) (r : batch) :
  Sql.select_batch pid bn s = Some r -> In r (inventory s).
Proof.
  unfold Sql.select_batch. intros H. apply find_some in H. tauto.
Qed.

Lemma add_or_update_inventory_wf pid bn q s :
  wf s -> wf (fst (add_or_update_inventory pid bn q s)).
Proof.
  intros Hwf. unfold add_or_update_inventory.
  destruct (negb _); auto.
  destruct pid as [pid|]; auto. destruct bn as [bn|]; auto.
  destruct q as [| |q]; auto.
  destruct (Z.leb_spec q 0); auto.
  destruct (Sql.select_product pid s) as [p|] eqn:Hp; auto.
  apply select_product_bound in Hp; auto.
  destruct (Sql.select_batch pid bn s) as [r|] eqn:Hr; cbn [fst].
  - apply wf_update_inventory_quantity; auto.
    apply select_batch_In in Hr.
    destruct Hwf as [_ _ _ _ _ _ _ Wq _]. rewrite Forall_forall in Wq.
    specialize (Wq r Hr). lia.
  - apply wf_insert_inventory; auto; lia.
Qed.

Lemma add_product_wf n d p q s :
  wf s -> wf (fst (add_product n d p q s)).
Proof.
  intros Hwf. unfold add_product.
  destruct (negb _); auto.
  destruct n as [n|]; auto. destruct p as [p|]; auto.
  destruct (Sql.insert_product n d p (get_default q 0) s) as [[s1 id]|] eqn:E;
    auto.
  apply wf_insert_product in E; auto. destruct E as (Hwf1 & -> & Hseq).
  cbn [fst]. destruct (Z.gtb_spec (get_default q 0) 0); auto.
  apply wf_add_inventory_quantity; [|lia].
  unfold Sql.insert_or_ignore_inventory.
  destruct (is_some _); auto.
  apply wf_insert_inventory; auto. lia.
Qed.

Lemma update_product_wf id n d p s :
  wf s -> wf (fst (update_product id n d p s)).
Proof.
  intros Hwf. unfold update_product.
  destruct (negb _); auto.
  destruct n as [n|]; auto. destruct p as [p|]; auto.
  destruct (Sql.update_product n d p id s) as [[s' rows]|] eqn:E; auto.
  apply wf_update_product in E; auto.
  destruct (rows =? 0); auto.
Qed.

Lemma delete_product_wf id s : wf s -> wf (fst (delete_product id s)).
Proof.
  intros Hwf. pose proof (wf_delete_product s Hwf id) as H.
  unfold delete_product.
  destruct (Sql.delete_product id (get_db_connection s)) as [s' rows].
  destruct (rows =? 0); auto.
Qed.

(** Every request takes a well-formed database to a well-formed one. *)
Lemma handle_wf now r s : wf s -> wf (fst (handle now r s)).
Proof.
  intros Hwf. destruct r; cbn [handle].
  - exact Hwf.
  - unfold register_user. destruct (negb _); auto.
    destruct username as [u|]; auto. destruct password as [p|]; auto.
    destruct (Sql.insert_user u p s) as [s'|] eqn:E; auto.
    eapply wf_insert_user; eauto.
  - unfold login_user. destruct (negb _); auto.
    destruct username as [u|]; auto. destruct password as [p|]; auto.
    destruct (Sql.select_user u p s); auto.
  - exact Hwf.
  - now apply add_product_wf.
  - now apply update_product_wf.
  - now apply delete_product_wf.
  - exact Hwf.
  - now apply add_or_update_inventory_wf.
  - unfold delete_inventory_batch.
    destruct (_ =? 0); cbn [fst]; now apply wf_delete_inventory.
  - now apply generate_bill_wf.
  - exact Hwf.
Qed.

(** So does every sequence of requests, from the empty database on. *)
Lemma run_wf rs s : wf s -> wf (run rs s).
Proof.
  revert s. induction rs as [|[now r] rs IH]; intros s Hwf; simpl; auto.
  apply IH. now apply handle_wf.
Qed.

(** Every database the application reaches from the one [init_db] creates
    passes the test [wf_db]. *)
Lemma reachable_wf rs : wf_db (run rs init_db) = true.
Proof.
  apply wf_db_spec, run_wf. apply wf_db_spec. reflexivity.
Qed.

(** * Properties of the billing transaction *)

(** ** The total of a bill *)

(** C1.  When [POST /bill] answers 201, the request's items are lines
    (product, quantity) whose unit prices are the ones the catalog holds
    when the request arrives, and both the [total_amount] of the response
    and the [total_amount] of the row appended to [bills] are
    (sum of price * quantity) * (1 - discount) * (1 + tax_rate), computed
    in double precision in that order, with a [discount] or [tax_rate]
    the request leaves out read as 0.  Nothing restricts [discount] and
    [tax_rate]. *)
Theorem bill_total_formula now c items d t s s' msg bill_id total :
  generate_bill now c items d t s = (s', (201, BillGenerated msg bill_id total)) ->
  exists (lines : list billed_line) (customer : string),
    items = Items (map item_of lines) /\
    Forall (priced_in s) lines /\
    total = bill_total lines (get_default d fzero) (get_default t fzero) /\
    bills s' = bills s ++ [mkBill bill_id customer now total
                                  (get_default d fzero) (get_default t fzero)].
Proof.
  intros H.
  destruct (generate_bill_201 _ _ _ _ _ _ _ _ H eq_refl)
    as (customer & lines & inv' & _ & -> & Hp & _ & Hr & ->).
  injection Hr as -> -> ->.
  exists lines, customer. repeat split; auto.
Qed.

(** A discount of 1.5 on one widget at 10.0: the bill is accepted with the
    total -5.0. *)
Lemma bill_total_formula_witness :
  snd (generate_bill "2024-05-01T09:30:00" (Some "Ada") (Items [line 1 1])
                     (Some 1.5%float) None shop)
    = (201, BillGenerated "Bill generated successfully" 1 (-5)%float)
  /\ exists (lines : list billed_line) (customer : string),
       Items [line 1 1] = Items (map item_of lines) /\
       Forall (priced_in shop) lines /\
       (-5)%float = bill_total lines 1.5%float fzero /\
       bills (fst (generate_bill "2024-05-01T09:30:00" (Some "Ada")
                                 (Items [line 1 1]) (Some 1.5%float) None shop))
         = bills shop ++ [mkBill 1 customer "2024-05-01T09:30:00" (-5)%float
                                 1.5%float fzero].
Proof.
  split; [reflexivity|].
  apply (bill_total_formula "2024-05-01T09:30:00" (Some "Ada")
           (Items [line 1 1]) (Some 1.5%float) None shop _
           "Bill generated successfully" 1 (-5)%float).
  reflexivity.
Defined.

(** ** Atomicity *)

(** C3.  A [POST /bill] request that is not answered with 201 (a missing
    product, a quantity that is not a positive integer, a product short of
    stock, at whichever item of the order) leaves the whole database as it
    was before the request: every batch keeps its quantity, and [bills]
    and [bill_items] get no row. *)
Theorem failed_bill_changes_nothing now c items d t s s' r :
  generate_bill now c items d t s = (s', r) -> status r <> 201 -> s' = s.
Proof. apply generate_bill_rollback. Qed.

(** Seven widgets and then five gadgets when only four are in stock: the
    first item has been taken from B1 and B2 when the second is rejected,
    and the database after the request is the one before it. *)
Lemma failed_bill_changes_nothing_witness :
  (exists w tot acc,
     process_item (line 1 7) (shop, fzero, []) = Ok (w, tot, acc)
     /\ batches_of 1 w = [mkBatch 2 1 "B2" 3])
  /\ snd (generate_bill "2024-05-01T09:30:00" (Some "Ada")
                        (Items [line 1 7; line 2 5]) None None shop)
     = (400, Error "Insufficient stock for product ID 2.")
  /\ fst (generate_bill "2024-05-01T09:30:00" (Some "Ada")
                        (Items [line 1 7; line 2 5]) None None shop) = shop.
Proof.
  split; [do 3 eexists; split; reflexivity|].
  split; [reflexivity|].
  apply (failed_bill_changes_nothing "2024-05-01T09:30:00" (Some "Ada")
           (Items [line 1 7; line 2 5]) None None shop _
           (400, Error "Insufficient stock for product ID 2.")).
  - reflexivity.
  - simpl. lia.
Defined.

(** ** Rejection for lack of stock *)




(** ** First in, first out *)

(** C2.  A billed item takes the batches of its product in ascending id
    order: the leading batches [gone], each smaller than what was still
    needed when it was reached, are deleted; the next batch [b] covers the
    rest of the need and is reduced by exactly that rest (and deleted when
    this leaves 0); no other row of [inventory] changes.  With the batches
    B1 and B2 of five widgets each, an order of seven deletes B1 and leaves
    B2 with three. *)
Theorem fifo_batch_consumption :
  (forall w tot acc pid q w' tot' acc',
     wf_db w = true ->
     process_item (line pid q) (w, tot, acc) = Ok (w', tot', acc') ->
     StronglySorted (fun x y => i_id x < i_id y) (Sql.select_batches pid w) /\
     Permutation (Sql.select_batches pid w) (batches_of pid w) /\
     exists gone b rest,
       Sql.select_batches pid w = gone ++ b :: rest /\
       (forall g1 x g2, gone = g1 ++ x :: g2 ->
                        i_quantity x < q - sum_quantities g1) /\
       0 < q - sum_quantities gone <= i_quantity b /\
       inventory w' =
         flat_map (fifo_outcome gone b
                     (i_quantity b - (q - sum_quantities gone)))
                  (inventory w))
  /\ (batches_of 1 shop = [mkBatch 1 1 "B1" 5; mkBatch 2 1 "B2" 5] /\
      batches_of 1 (fst (generate_bill "2024-05-01T09:30:00" (Some "Ada")
                           (Items [line 1 7]) None None shop))
        = [mkBatch 2 1 "B2" 3]).
Proof.
  split; [|split; reflexivity].
  intros w tot acc pid q w' tot' acc' Hwf H. apply wf_db_spec in Hwf.
  split; [now apply select_batches_ascending|].
  split; [apply select_batches_perm|].
  pose proof (process_item_inv _ _ _ _ _ _ _ H)
    as (pid' & q' & p & Hl & _ & Hq & Hsel & _).
  injection Hl as <- <-.
  destruct (process_item_cases pid q p w tot acc Hwf Hq Hsel)
    as [[_ E]|(_ & gone & b & rest & Hb & Hrange & E)]; [congruence|].
  rewrite E in H. injection H as <- _ _.
  exists gone, b, rest. repeat split; auto; try lia.
  intros g1 x g2 ->.
  rewrite sum_quantities_app, sum_quantities_cons in Hrange.
  assert (0 <= sum_quantities g2).
  { assert (Forall (fun r => 0 < i_quantity r) g2) as Hpos.
    { apply Forall_forall. intros r Hr.
      assert (In r (Sql.select_batches pid w)) as Hin.
      { rewrite Hb. rewrite <- app_assoc. simpl.
        apply in_app_iff. right. right. apply in_app_iff. now left. }
      apply select_batches_In in Hin.
      destruct Hwf as [_ _ _ _ _ _ _ Wq _]. rewrite Forall_forall in Wq.
      apply Wq. tauto. }
    clear - Hpos. induction Hpos as [|y l Hy Hl IH].
    - now change (sum_quantities []) with 0.
    - rewrite sum_quantities_cons. lia. }
  lia.
Qed.

(** Seven widgets out of the shop, where B1 and B2 hold five each. *)
Lemma fifo_batch_consumption_witness :
  exists gone b rest,
    Sql.select_batches 1 shop = gone ++ b :: rest /\
    (forall g1 x g2, gone = g1 ++ x :: g2 ->
                     i_quantity x < 7 - sum_quantities g1) /\
    0 < 7 - sum_quantities gone <= i_quantity b /\
    inventory (with_inventory
                 [mkBatch 2 1 "B2" 3; mkBatch 3 2 "INITIAL-2" 4] shop) =
      flat_map (fifo_outcome gone b
                  (i_quantity b - (7 - sum_quantities gone)))
               (inventory shop).
Proof.
  apply (proj1 fifo_batch_consumption shop fzero [] 1 7
           (with_inventory [mkBatch 2 1 "B2" 3; mkBatch 3 2 "INITIAL-2" 4] shop)
           70%float [(1, 7, 10%float)]).
  - reflexivity.
  - reflexivity.
Defined.

(** A product at 10.0 with the batches b1 of 3 and b2 of 4: an order of 5
    deletes b1, leaves b2 with 2 and is billed 50.0. *)
Example fifo_three_and_four :
  let s := run [ ("", PostProducts (Some "P") None (Some 10%float) None);
                 ("", PostInventory (Some 1) (Some "b1") (Int 3));
                 ("", PostInventory (Some 1) (Some "b2") (Int 4)) ] init_db in
  let r := generate_bill "2024-05-01T09:30:00" (Some "Ada")
                         (Items [line 1 5]) None None s in
  inventory (fst r) = [mkBatch 2 1 "b2" 2]
  /\ snd r = (201, BillGenerated "Bill generated successfully" 1 50%float).
Proof. split; reflexivity. Qed.

(** ** Quantities stay positive *)

Lemma fifo_outcome_product gone b remaining r r' :
  In r' (fifo_outcome gone b remaining r) -> i_product_id r' = i_product_id r.
Proof.
  unfold fifo_outcome.
  destruct (existsb _ gone); [intros []|].
  destruct (i_id r =? i_id b); [destruct (remaining =? 0); [intros []|]|];
    simpl; intros [<-|[]]; reflexivity.
Qed.







(** ** Deleting a product *)

(** What the schema asks for happens on a connection that enforces foreign
    keys: the batches of a deleted product go with it. *)
Lemma delete_product_cascades_with_foreign_keys (pid : Z) (s : db) :
  is_some (Sql.select_product pid s) = true ->
  batches_of pid (fst (Sql.delete_product pid (mkConn s true))) = [].
Proof.
  intros Hp. unfold batches_of, Sql.delete_product. cbn.
  destruct (Sql.select_product pid s) as [p|] eqn:E; [|discriminate].
  unfold Sql.select_product in E. apply find_some in E.
  destruct (filter (fun p => p_id p =? pid) (products s)) as [|x l] eqn:F.
  - exfalso. assert (In p []) as H; [|destruct H].
    rewrite <- F. now apply filter_In.
  - cbn. apply filter_none. intros r Hr. apply filter_In in Hr.
    destruct Hr as [_ Hr]. now apply negb_true_iff in Hr.
Qed.

(** C6.  [DELETE /products/<id>] leaves [inventory] as it is: the route's
    connection does not enforce foreign keys, so the ON DELETE CASCADE of
    the schema is not carried out.  Deleting the widget from the shop is
    answered with 200 and both its batches are still there. *)
Theorem delete_product_keeps_batches :
  (forall pid s, inventory (fst (delete_product pid s)) = inventory s)
  /\ status (snd (delete_product 1 shop)) = 200
  /\ Sql.select_product 1 (fst (delete_product 1 shop)) = None
  /\ batches_of 1 (fst (delete_product 1 shop))
     = [mkBatch 1 1 "B1" 5; mkBatch 2 1 "B2" 5].
Proof.
  split; [|repeat split].
  intros pid s. unfold delete_product. cbn.
  destruct (_ =? 0); reflexivity.
Qed.

(** ** The initial batch of a product *)


Lemma map_update_none {A : Type} (c : A -> bool) (h : A -> A) (l : list A) :
  (forall x, In x l -> c x = false) ->
  map (fun x => if c x then h x else x) l = l.
Proof.
  induction l as [|x l IH]; simpl; intros H; auto.
  rewrite (H x) by auto. f_equal. apply IH. auto.
Qed.



(** ** Listing the bills *)




Lemma insert_by_date_perm (b : bill) (l : list bill) :
  Permutation (Sql.insert_by_date b l) (b :: l).
Proof.
  induction l as [|x l IH]; simpl; auto.
  destruct (String.leb _ _); auto.
  rewrite IH. apply perm_swap.
Qed.

Lemma order_by_date_desc_perm (l : list bill) :
  Permutation (Sql.order_by_date_desc l) l.
Proof.
  induction l as [|x l IH]; simpl; auto.
  rewrite insert_by_date_perm. now constructor.
Qed.





(** Two bills made in the shop a day apart come back latest first. *)
Example get_bills_two_days :
  let s1 := fst (generate_bill "2024-05-01T09:30:00" (Some "Ada")
                               (Items [line 1 2]) None None shop) in
  let s2 := fst (generate_bill "2024-05-02T08:00:00.250000" (Some "Bob")
                               (Items [line 2 1]) None (Some 0.5%float) s1) in
  snd (get_bills s2)
  = (200, BillRows
            [mkBillView
               (mkBill 2 "Bob" "2024-05-02T08:00:00.250000" 3.75%float
                       fzero 0.5%float)
               [mkItemView 1 2.5%float "gadget" (Some "small")];
             mkBillView
               (mkBill 1 "Ada" "2024-05-01T09:30:00" 20%float fzero fzero)
               [mkItemView 2 10%float "widget" None]]).
Proof. reflexivity. Qed.

(** ** Stored bills are never touched again *)

Lemma generate_bill_keeps_bills now c items d t s :
  exists bs bis,
    bills (fst (generate_bill now c items d t s)) = bills s ++ bs /\
    bill_items (fst (generate_bill now c items d t s)) = bill_items s ++ bis.
Proof.
  destruct (generate_bill now c items d t s) as [s' r] eqn:E.
  destruct (Z.eq_dec (status r) 201) as [Hr|Hr].
  - destruct (generate_bill_201 _ _ _ _ _ _ _ _ E Hr)
      as (customer & lines & inv' & _ & _ & _ & _ & _ & ->).
    simpl. eauto.
  - apply generate_bill_rollback in E; auto. subst.
    exists [], []. now rewrite !app_nil_r.
Qed.

(** No route changes or removes a row of [bills] or [bill_items]. *)
Lemma handle_keeps_bills now r s :
  exists bs bis,
    bills (fst (handle now r s)) = bills s ++ bs /\
    bill_items (fst (handle now r s)) = bill_items s ++ bis.
Proof.
  assert (forall s' : db,
            bills s' = bills s -> bill_items s' = bill_items s ->
            exists bs bis, bills s' = bills s ++ bs /\
                           bill_items s' = bill_items s ++ bis) as Hsame.
  { intros s' -> ->. exists [], []. now rewrite !app_nil_r. }
  destruct r; cbn [handle]; try (apply Hsame; reflexivity).
  - unfold register_user. destruct (negb _); [now apply Hsame|].
    destruct username as [u|]; [|now apply Hsame].
    destruct password as [p|]; [|now apply Hsame].
    unfold Sql.insert_user. destruct (existsb _ _); now apply Hsame.
  - unfold login_user. destruct (negb _); [now apply Hsame|].
    destruct username as [u|]; [|now apply Hsame].
    destruct password as [p|]; [|now apply Hsame].
    destruct (Sql.select_user u p s); now apply Hsame.
  - unfold add_product. destruct (negb _); [now apply Hsame|].
    destruct name as [n|]; [|now apply Hsame].
    destruct price as [p|]; [|now apply Hsame].
    unfold Sql.insert_product. destruct (existsb _ _); [now apply Hsame|].
    cbn [fst]. destruct (_ >? 0); [|now apply Hsame].
    unfold Sql.insert_or_ignore_inventory.
    destruct (is_some _); now apply Hsame.
  - unfold update_product. destruct (negb _); [now apply Hsame|].
    destruct name as [n|]; [|now apply Hsame].
    destruct price as [p|]; [|now apply Hsame].
    unfold Sql.update_product. destruct (_ && _); [now apply Hsame|].
    destruct (_ =? 0); now apply Hsame.
  - unfold delete_product. cbn. destruct (_ =? 0); now apply Hsame.
  - unfold add_or_update_inventory. destruct (negb _); [now apply Hsame|].
    destruct product_id as [pid|]; [|now apply Hsame].
    destruct batch_number as [bn|]; [|now apply Hsame].
    destruct quantity as [| |q]; try now apply Hsame.
    destruct (q <=? 0); [now apply Hsame|].
    destruct (Sql.select_product pid s); [|now apply Hsame].
    destruct (Sql.select_batch pid bn s); now apply Hsame.
  - unfold delete_inventory_batch. destruct (_ =? 0); now apply Hsame.
  - apply generate_bill_keeps_bills.
Qed.

Lemma run_keeps_bills rs s :
  exists bs bis,
    bills (run rs s) = bills s ++ bs /\
    bill_items (run rs s) = bill_items s ++ bis.
Proof.
  revert s. induction rs as [|[now r] rs IH]; intros s; simpl.
  - exists [], []. now rewrite !app_nil_r.
  - destruct (IH (fst (handle now r s))) as (bs & bis & -> & ->).
    destruct (handle_keeps_bills now r s) as (bs' & bis' & -> & ->).
    exists (bs' ++ bs), (bis' ++ bis). now rewrite !app_assoc.
Qed.

Lemma update_product_keeps_bills id n d p s :
  bills (fst (update_product id n d p s)) = bills s /\
  bill_items (fst (update_product id n d p s)) = bill_items s.
Proof.
  unfold update_product. destruct (negb _); auto.
  destruct n as [n|]; auto. destruct p as [p|]; auto.
  unfold Sql.update_product. destruct (_ && _); auto.
  destruct (_ =? 0); auto.
Qed.

Lemma run_updates_keep_bills rs s :
  forallb (fun x => is_product_update (snd x)) rs = true ->
  bills (run rs s) = bills s /\ bill_items (run rs s) = bill_items s.
Proof.
  revert s. induction rs as [|[now r] rs IH]; intros s H; simpl; auto.
  simpl in H. apply andb_true_iff in H. destruct H as [Hr H].
  destruct (IH (fst (handle now r s)) H) as [-> ->].
  destruct r; try discriminate. apply update_product_keeps_bills.
Qed.

(** C7.  The rows a successful bill appends to [bill_items] carry, line by
    line, the quantity ordered and the unit price the catalog held when the
    request arrived.  After any sequence of [PUT /products/<id>] requests
    [bills] and [bill_items] are what they were right after the bill; after
    any sequence of requests at all they still start with the same rows. *)
Theorem price_snapshot_is_kept now c items d t s s1 msg bill_id total :
  generate_bill now c items d t s = (s1, (201, BillGenerated msg bill_id total)) ->
  exists lines,
    items = Items (map item_of lines) /\
    Forall (priced_in s) lines /\
    bill_items s1
      = bill_items s ++ number_bill_items (seq_bill_items s) bill_id lines /\
    (forall rs,
       forallb (fun x => is_product_update (snd x)) rs = true ->
       bills (run rs s1) = bills s1 /\ bill_items (run rs s1) = bill_items s1) /\
    (forall rs, exists later_bills later_items,
       bills (run rs s1) = bills s1 ++ later_bills /\
       bill_items (run rs s1) = bill_items s1 ++ later_items).
Proof.
  intros H.
  destruct (generate_bill_201 _ _ _ _ _ _ _ _ H eq_refl)
    as (customer & lines & inv' & _ & -> & Hp & _ & Hr & Hs1).
  injection Hr as -> -> ->.
  exists lines. split; [reflexivity|]. split; [exact Hp|].
  split; [now rewrite Hs1|].
  split.
  - intros rs. apply run_updates_keep_bills.
  - intros rs. apply run_keeps_bills.
Qed.

(** A widget is billed at 10.0; the catalog price is then raised to 12.5
    and 99.0; the stored line still says 10.0. *)
Lemma price_snapshot_is_kept_witness :
  let s1 := fst (generate_bill "2024-05-01T09:30:00" (Some "Ada")
                               (Items [line 1 2]) None None shop) in
  let rs := [("", PutProduct 1 (Some "widget") None (Some 12.5%float));
             ("", PutProduct 1 (Some "widget") None (Some 99%float))] in
  (option_map p_price (Sql.select_product 1 (run rs s1)) = Some 99%float
   /\ bill_items (run rs s1) = [mkBillItem 1 1 1 2 10%float])
  /\ exists lines,
       Items [line 1 2] = Items (map item_of lines) /\
       Forall (priced_in shop) lines /\
       bill_items s1
         = bill_items shop ++ number_bill_items (seq_bill_items shop) 1 lines /\
       (forall rs,
          forallb (fun x => is_product_update (snd x)) rs = true ->
          bills (run rs s1) = bills s1 /\ bill_items (run rs s1) = bill_items s1) /\
       (forall rs, exists later_bills later_items,
          bills (run rs s1) = bills s1 ++ later_bills /\
          bill_items (run rs s1) = bill_items s1 ++ later_items).
Proof.
  split; [split; reflexivity|].
  apply (price_snapshot_is_kept "2024-05-01T09:30:00" (Some "Ada")
           (Items [line 1 2]) None None shop _
           "Bill generated successfully" 1 20%float).
  reflexivity.
Defined.

(** ** Bills of deleted products *)

Lemma join_unique (x : Z) (ps : list product) :
  NoDup (map p_id ps) ->
  filter (fun p => x =? p_id p) ps =
  match find (fun p => p_id p =? x) ps with
  | Some p => [p]
  | None => []
  end.
Proof.
  induction ps as [|p ps IH]; simpl; intros Hnd; auto.
  inversion Hnd as [|? ? Hnin Hnd']; subst.
  rewrite (Z.eqb_sym (p_id p) x).
  destruct (Z.eqb_spec x (p_id p)) as [->|Hne]; auto.
  f_equal. apply filter_none. intros q Hq. apply Z.eqb_neq.
  intros E. apply Hnin. rewrite E. now apply in_map.
Qed.

Lemma select_bill_items_rows (bill_id : Z) (s : db) :
  wf s ->
  select_bill_items bill_id s =
  flat_map (view_of_row s)
           (filter (fun bi => bi_bill_id bi =? bill_id) (bill_items s)).
Proof.
  intros Hwf. unfold select_bill_items. apply flat_map_ext. intros bi.
  rewrite join_unique by apply Hwf.
  unfold view_of_row, Sql.select_product.
  now destruct (find _ (products s)).
Qed.

Lemma select_product_after_delete (x pid : Z) (s : db) :
  Sql.select_product x (fst (delete_product pid s)) =
  if x =? pid then None else Sql.select_product x s.
Proof.
  unfold delete_product. cbn.
  assert (Sql.select_product x
            (mkDb (users s)
                  (filter (fun p => negb (p_id p =? pid)) (products s))
                  (inventory s) (bills s) (bill_items s) (seq_users s)
                  (seq_products s) (seq_inventory s) (seq_bills s)
                  (seq_bill_items s))
          = if x =? pid then None else Sql.select_product x s) as H.
  { unfold Sql.select_product. cbn [products].
    induction (products s) as [|p ps IH]; simpl.
    - now destruct (x =? pid).
    - destruct (Z.eqb_spec (p_id p) pid) as [E|E]; simpl.
      + rewrite IH. destruct (Z.eqb_spec x pid) as [->|Hx]; auto.
        destruct (Z.eqb_spec (p_id p) x); [congruence|reflexivity].
      + destruct (Z.eqb_spec (p_id p) x) as [E'|E']; auto.
        destruct (Z.eqb_spec x pid); [congruence|reflexivity]. }
  destruct (_ =? 0); exact H.
Qed.

Lemma new_bill_items (seq bill_id : Z) (lines : list billed_line)
    (old : list bill_item) :
  Forall (fun bi => bi_bill_id bi < bill_id) old ->
  filter (fun bi => bi_bill_id bi =? bill_id)
         (old ++ number_bill_items seq bill_id lines)
  = number_bill_items seq bill_id lines.
Proof.
  intros Hold. rewrite filter_app. rewrite filter_none.
  - simpl. revert seq.
    induction lines as [|[[pid q] price] lines IH]; intros seq; simpl; auto.
    rewrite Z.eqb_refl. f_equal. apply IH.
  - rewrite Forall_forall in Hold. intros bi Hbi. specialize (Hold bi Hbi).
    apply Z.eqb_neq. lia.
Qed.

Lemma views_of_new_rows (s : db) (seq bill_id : Z) (lines : list billed_line) :
  flat_map (view_of_row s) (number_bill_items seq bill_id lines)
  = flat_map (item_view_of s) lines.
Proof.
  revert seq. induction lines as [|[[pid q] price] lines IH]; intros seq;
    simpl; auto.
  rewrite IH. reflexivity.
Qed.

Lemma views_after_delete (s s2 : db) (pid : Z) (lines : list billed_line) :
  (forall x, Sql.select_product x s2
             = if x =? pid then None else Sql.select_product x s) ->
  flat_map (item_view_of s2) lines
  = flat_map (item_view_of s)
             (filter (fun l => negb (line_product l =? pid)) lines).
Proof.
  intros Hsel. induction lines as [|[[x q] price] lines IH]; simpl; auto.
  rewrite IH, Hsel. unfold line_product. simpl.
  destruct (x =? pid); reflexivity.
Qed.

Lemma views_of_priced_lines (s : db) (lines : list billed_line) :
  Forall (priced_in s) lines ->
  List.length (flat_map (item_view_of s) lines) = List.length lines.
Proof.
  induction 1 as [|[[x q] price] lines (p & Hp & _) Hl IH]; simpl; auto.
  rewrite Hp. simpl. now rewrite IH.
Qed.

(** C10.  The [items] of a bill returned by [GET /bills] hold one element
    per stored line whose product is in the catalog and none for the
    others.  So when a product is deleted after a bill was made, the bill
    comes back with its [total_amount] as stored, computed from all its
    lines, and with the lines of the deleted product missing from
    [items]. *)
Theorem deleted_product_drops_line_items :
  (forall s bill_id,
     wf_db s = true ->
     select_bill_items bill_id s =
     flat_map (view_of_row s)
              (filter (fun bi => bi_bill_id bi =? bill_id) (bill_items s)))
  /\ (forall now c items d t s s1 msg bill_id total pid,
        wf_db s = true ->
        generate_bill now c items d t s
          = (s1, (201, BillGenerated msg bill_id total)) ->
        status (snd (delete_product pid s1)) = 200 ->
        let s2 := fst (delete_product pid s1) in
        exists lines b,
          items = Items (map item_of lines) /\
          total = bill_total lines (get_default d fzero) (get_default t fzero) /\
          select_bill_items bill_id s1 = flat_map (item_view_of s) lines /\
          List.length (select_bill_items bill_id s1) = List.length lines /\
          b_id b = bill_id /\ b_total_amount b = total /\
          In (mkBillView b
                (flat_map (item_view_of s)
                   (filter (fun l => negb (line_product l =? pid)) lines)))
             (bills_data s2)).
Proof.
  split.
  - intros s bill_id Hwf. apply select_bill_items_rows. now apply wf_db_spec.
  - intros now c items d t s s1 msg bill_id total pid Hwf H Hdel s2.
    apply wf_db_spec in Hwf.
    assert (wf s1) as Hwf1.
    { pose proof (generate_bill_wf now c items d t s Hwf) as W.
      now rewrite H in W. }
    assert (wf s2) as Hwf2 by now apply delete_product_wf.
    destruct (generate_bill_201 _ _ _ _ _ _ _ _ H eq_refl)
      as (customer & lines & inv' & _ & -> & Hp & _ & Hr & Hs1).
    injection Hr as -> -> ->.
    set (total := bill_total lines (get_default d fzero) (get_default t fzero)) in *.
    set (b := mkBill (seq_bills s + 1) customer now total
                     (get_default d fzero) (get_default t fzero)).
    assert (forall s' : db,
              wf s' -> bill_items s' = bill_items s1 ->
              select_bill_items (seq_bills s + 1) s'
              = flat_map (item_view_of s') lines) as Hitems.
    { intros s' Hwf' Hbi. rewrite select_bill_items_rows by exact Hwf'.
      rewrite Hbi, Hs1. cbn [bill_items]. rewrite new_bill_items.
      - apply views_of_new_rows.
      - destruct Hwf as [_ _ _ _ _ _ _ _ Wl].
        eapply Forall_impl; [|exact Wl]. simpl. intros; lia. }
    assert (forall x, Sql.select_product x s1 = Sql.select_product x s) as Hsame.
    { intros x. now rewrite Hs1. }
    assert (flat_map (item_view_of s1) lines = flat_map (item_view_of s) lines)
      as Hviews.
    { apply flat_map_ext. intros [[x q] price]. simpl. now rewrite Hsame. }
    exists lines, b. split; [reflexivity|]. split; [reflexivity|].
    split; [rewrite Hitems by auto; exact Hviews|].
    split; [rewrite Hitems, Hviews by auto; now apply views_of_priced_lines|].
    split; [reflexivity|]. split; [reflexivity|].
    unfold bills_data. apply in_map_iff. exists b. split.
    + f_equal. change (b_id b) with (seq_bills s + 1).
      rewrite Hitems; auto.
      * apply views_after_delete. intros x. unfold s2.
        rewrite select_product_after_delete, Hsame. reflexivity.
      * unfold s2, delete_product. cbn. destruct (_ =? 0); reflexivity.
    + eapply Permutation_in; [symmetry; apply order_by_date_desc_perm|].
      assert (bills s2 = bills s1) as ->.
      { unfold s2, delete_product. cbn. destruct (_ =? 0); reflexivity. }
      rewrite Hs1. cbn [bills]. apply in_app_iff. right. now left.
Qed.

(** Two widgets and a gadget are billed, then the gadget is deleted from
    the catalog: the bill of 22.5 comes back with the widgets only. *)
Lemma deleted_product_drops_line_items_witness :
  let s1 := fst (generate_bill "2024-05-01T09:30:00" (Some "Ada")
                               (Items [line 1 2; line 2 1]) None None shop) in
  snd (get_bills (fst (delete_product 2 s1)))
    = (200, BillRows
              [mkBillView
                 (mkBill 1 "Ada" "2024-05-01T09:30:00" 22.5%float fzero fzero)
                 [mkItemView 2 10%float "widget" None]])
  /\ exists lines b,
       Items [line 1 2; line 2 1] = Items (map item_of lines) /\
       22.5%float = bill_total lines fzero fzero /\
       select_bill_items 1 s1 = flat_map (item_view_of shop) lines /\
       List.length (select_bill_items 1 s1) = List.length lines /\
       b_id b = 1 /\ b_total_amount b = 22.5%float /\
       In (mkBillView b
             (flat_map (item_view_of shop)
                (filter (fun l => negb (line_product l =? 2)) lines)))
          (bills_data (fst (delete_product 2 s1))).
Proof.
  split; [reflexivity|].
  apply (proj2 deleted_product_drops_line_items
           "2024-05-01T09:30:00" (Some "Ada") (Items [line 1 2; line 2 1])
           None None shop _ "Bill generated successfully" 1 22.5%float 2).
  - reflexivity.
  - reflexivity.
  - reflexivity.
Defined.

(** * Accounts *)

Lemma find_and_filter {A : Type} (f g : A -> bool) (l : list A) :
  find (fun x => f x && g x) l = find g (filter f l).
Proof.
  induction l as [|x l IH]; simpl; auto.
  destruct (f x); simpl; rewrite IH; auto.
Qed.

(** A request either leaves [users] alone or appends one row whose
    username no row had. *)
Lemma handle_users now r s :
  users (fst (handle now r s)) = users s \/
  exists u p,
    existsb (fun x => String.eqb (u_username x) u) (users s) = false /\
    users (fst (handle now r s)) = users s ++ [mkUser (seq_users s + 1) u p].
Proof.
  destruct r; cbn [handle]; try (left; reflexivity).
  - unfold register_user. destruct (negb _); [now left|].
    destruct username as [u|]; [|now left].
    destruct password as [p|]; [|now left].
    unfold Sql.insert_user.
    destruct (existsb _ (users s)) eqn:E; [now left|].
    right. exists u, p. auto.
  - unfold login_user. destruct (negb _); [now left|].
    destruct username as [u|]; [|now left].
    destruct password as [p|]; [|now left].
    destruct (Sql.select_user u p s); now left.
  - left. unfold add_product. destruct (negb _); auto.
    destruct name as [n|]; auto. destruct price as [p|]; auto.
    unfold Sql.insert_product. destruct (existsb _ _); auto.
    cbn [fst]. destruct (_ >? 0); auto.
    unfold Sql.insert_or_ignore_inventory. destruct (is_some _); auto.
  - left. unfold update_product. destruct (negb _); auto.
    destruct name as [n|]; auto. destruct price as [p|]; auto.
    unfold Sql.update_product. destruct (_ && _); auto.
    destruct (_ =? 0); auto.
  - left. unfold delete_product. cbn. destruct (_ =? 0); auto.
  - left. unfold add_or_update_inventory. destruct (negb _); auto.
    destruct product_id as [pid|]; auto.
    destruct batch_number as [bn|]; auto.
    destruct quantity as [| |q]; auto.
    destruct (q <=? 0); auto.
    destruct (Sql.select_product pid s); auto.
    destruct (Sql.select_batch pid bn s); auto.
  - left. unfold delete_inventory_batch. destruct (_ =? 0); auto.
  - left. destruct (generate_bill now customer_name items discount tax_rate s)
      as [s' r] eqn:E.
    destruct (Z.eq_dec (status r) 201) as [Hr|Hr].
    + destruct (generate_bill_201 _ _ _ _ _ _ _ _ E Hr)
        as (customer & lines & inv' & _ & _ & _ & _ & _ & ->).
      reflexivity.
    + apply generate_bill_rollback in E; auto. now subst.
Qed.

Lemma handle_keeps_account now r s u x l :
  filter (fun y => String.eqb (u_username y) u) (users s) = x :: l ->
  filter (fun y => String.eqb (u_username y) u) (users (fst (handle now r s)))
  = x :: l.
Proof.
  intros H. destruct (handle_users now r s) as [->|(u' & p' & Hnew & ->)]; auto.
  rewrite filter_app, H. simpl.
  destruct (String.eqb_spec u' u) as [->|Hne]; [|now rewrite app_nil_r].
  exfalso.
  assert (In x (filter (fun y => String.eqb (u_username y) u) (users s))) as Hx
    by (rewrite H; now left).
  apply filter_In in Hx.
  assert (existsb (fun y => String.eqb (u_username y) u) (users s) = true) as E
    by (apply existsb_exists; eauto).
  congruence.
Qed.

Lemma run_keeps_account rs s u x l :
  filter (fun y => String.eqb (u_username y) u) (users s) = x :: l ->
  filter (fun y => String.eqb (u_username y) u) (users (run rs s)) = x :: l.
Proof.
  revert s. induction rs as [|[now r] rs IH]; intros s H; simpl; auto.
  apply IH. now apply handle_keeps_account.
Qed.

(** X1.  After a registration answered with 201 and any requests that
    follow it, a login with the registered username is answered with 200
    exactly when it gives the registered password, and the answer then
    carries the username. *)
Theorem registered_user_logs_in u p s s1 r :
  register_user (Some u) (Some p) s = (s1, r) -> status r = 201 ->
  forall rs p',
    (status (snd (login_user (Some u) (Some p') (run rs s1))) = 200 <-> p' = p)
    /\ snd (login_user (Some u) (Some p) (run rs s1))
       = (200, LoggedIn "Login successful" u).
Proof.
  unfold register_user.
  destruct (negb (truthy_str (Some u) && truthy_str (Some p))) eqn:Ht;
    [intros [= <- <-]; discriminate|].
  apply negb_false_iff, andb_true_iff in Ht. destruct Ht as [Hu Hp].
  unfold Sql.insert_user.
  destruct (existsb _ (users s)) eqn:E; [intros [= <- <-]; discriminate|].
  intros [= <- _] _ rs p'.
  assert (filter (fun y => String.eqb (u_username y) u)
                 (users (run rs
                    (mkDb (users s ++ [mkUser (seq_users s + 1) u p])
                          (products s) (inventory s) (bills s) (bill_items s)
                          (seq_users s + 1) (seq_products s) (seq_inventory s)
                          (seq_bills s) (seq_bill_items s))))
          = [mkUser (seq_users s + 1) u p]) as Hf.
  { apply run_keeps_account. cbn [users]. rewrite filter_app.
    rewrite filter_none.
    - simpl. now rewrite String.eqb_refl.
    - intros y Hy. destruct (String.eqb (u_username y) u) eqn:Ey; auto.
      assert (existsb (fun x => String.eqb (u_username x) u) (users s) = true)
        by (apply existsb_exists; eauto).
      congruence. }
  set (s2 := run rs _) in *.
  assert (forall q, Sql.select_user u q s2
                    = if String.eqb p q then Some (mkUser (seq_users s + 1) u p)
                      else None) as Hsel.
  { intros q. unfold Sql.select_user. rewrite find_and_filter, Hf. reflexivity. }
  split.
  - unfold login_user. rewrite Hu. cbn [andb].
    destruct (truthy_str (Some p')) eqn:Hp'; cbn [negb].
    + rewrite Hsel. destruct (String.eqb_spec p p') as [->|Hne]; simpl.
      * tauto.
      * split; [discriminate|congruence].
    + simpl. split; [discriminate|]. intros ->. congruence.
  - unfold login_user. rewrite Hu, Hp. cbn [andb negb].
    rewrite Hsel, String.eqb_refl. reflexivity.
Qed.

(** Ada registers, products and users come and go, and she logs in with
    her password and not with another one. *)
Lemma registered_user_logs_in_witness :
  let s1 := fst (register_user (Some "ada") (Some "s3cret") shop) in
  let rs := [("", PostRegister (Some "bob") (Some "s3cret"));
             ("", PostRegister (Some "ada") (Some "other"));
             ("", DeleteProduct 1)] in
  (status (snd (login_user (Some "ada") (Some "other") (run rs s1))) = 200
   <-> "other" = "s3cret")
  /\ snd (login_user (Some "ada") (Some "s3cret") (run rs s1))
     = (200, LoggedIn "Login successful" "ada").
Proof.
  apply (registered_user_logs_in "ada" "s3cret" shop _
           (201, Message "User registered successfully")).
  - reflexivity.
  - reflexivity.
Defined.

(** X2.  Usernames stay pairwise distinct under every request, and a
    registration under a username that is taken is answered with 409 and
    changes nothing. *)
Theorem usernames_stay_distinct :
  (forall now r s,
     NoDup (map u_username (users s)) ->
     NoDup (map u_username (users (fst (handle now r s)))))
  /\ (forall u p s,
        In u (map u_username (users s)) -> u <> "" -> p <> "" ->
        register_user (Some u) (Some p) s
        = (s, (409, Error "Username already exists"))).
Proof.
  split.
  - intros now r s Hnd.
    destruct (handle_users now r s) as [->|(u & p & Hnew & ->)]; auto.
    rewrite map_app. simpl. apply NoDup_snoc; auto.
    intros Hin. apply in_map_iff in Hin. destruct Hin as (x & Hx & Hin).
    assert (existsb (fun y => String.eqb (u_username y) u) (users s) = true) as E.
    { apply existsb_exists. exists x. split; auto. now apply String.eqb_eq. }
    congruence.
  - intros u p s Hin Hu Hp. unfold register_user, truthy_str.
    apply String.eqb_neq in Hu, Hp. rewrite Hu, Hp. cbn [negb andb].
    unfold Sql.insert_user.
    assert (existsb (fun y => String.eqb (u_username y) u) (users s) = true) as E.
    { apply in_map_iff in Hin. destruct Hin as (x & Hx & Hin).
      apply existsb_exists. exists x. split; auto. now apply String.eqb_eq. }
    now rewrite E.
Qed.

Lemma usernames_stay_distinct_witness :
  let s1 := fst (register_user (Some "ada") (Some "s3cret") shop) in
  NoDup (map u_username
           (users (fst (handle "" (PostRegister (Some "bob") (Some "pw")) s1))))
  /\ register_user (Some "ada") (Some "again") s1
     = (s1, (409, Error "Username already exists")).
Proof.
  split.
  - apply (proj1 usernames_stay_distinct).
    simpl. constructor; [intros []|constructor].
  - apply (proj2 usernames_stay_distinct).
    + simpl. now left.
    + discriminate.
    + discriminate.
Defined.

(** * The catalog *)

Lemma find_filter_length {A : Type} (f : A -> bool) (l : list A) :
  (Z.of_nat (List.length (filter f l)) =? 0) = negb (is_some (find f l)).
Proof.
  induction l as [|x l IH]; simpl; auto.
  destruct (f x); simpl; auto.
Qed.

Lemma find_snoc_fresh {A : Type} (f : A -> bool) (l : list A) (x : A) :
  (forall y, In y l -> f y = false) ->
  find f (l ++ [x]) = if f x then Some x else None.
Proof.
  induction l as [|y l IH]; simpl; intros H; auto.
  rewrite (H y) by auto. apply IH. auto.
Qed.

Lemma find_snoc_other {A : Type} (f : A -> bool) (l : list A) (x : A) :
  f x = false -> find f (l ++ [x]) = find f l.
Proof.
  intros Hx. induction l as [|y l IH]; simpl.
  - now rewrite Hx.
  - destruct (f y); auto.
Qed.

Lemma find_map_update (id id' : Z) (h : product -> product) (l : list product) :
  (forall p, p_id (h p) = p_id p) ->
  find (fun p => p_id p =? id')
       (map (fun p => if p_id p =? id then h p else p) l)
  = option_map (fun p => if p_id p =? id then h p else p)
               (find (fun p => p_id p =? id') l).
Proof.
  intros Hh. induction l as [|x l IH]; simpl; auto.
  assert (p_id (if p_id x =? id then h x else x) = p_id x) as ->
    by (destruct (p_id x =? id); auto).
  destruct (p_id x =? id'); auto.
Qed.

Lemma names_after_update (id : Z) (n : string) (h : product -> product)
    (l : list product) :
  (forall p, p_id (h p) = p_id p) -> (forall p, p_name (h p) = n) ->
  NoDup (map p_id l) -> NoDup (map p_name l) ->
  (forall p, In p l -> p_id p <> id -> p_name p <> n) ->
  NoDup (map p_name (map (fun p => if p_id p =? id then h p else p) l)).
Proof.
  intros Hid Hname. induction l as [|x l IH]; simpl; intros Hi Hn Hother;
    [constructor|].
  inversion Hi as [|? ? Hi1 Hi2]; subst. inversion Hn as [|? ? Hn1 Hn2]; subst.
  destruct (Z.eqb_spec (p_id x) id) as [E|E].
  - rewrite map_update_none.
    + rewrite Hname. constructor; auto.
      intros Hin. apply in_map_iff in Hin. destruct Hin as (y & Hy & Hin).
      apply (Hother y); auto. intros E'. apply Hi1.
      rewrite E, <- E'. now apply in_map.
    + intros y Hy. apply Z.eqb_neq. intros E'. apply Hi1.
      rewrite E, <- E'. now apply in_map.
  - constructor; [|apply IH; auto].
    intros Hin. apply in_map_iff in Hin. destruct Hin as (y & Hy & Hin).
    apply in_map_iff in Hin. destruct Hin as (z & <- & Hz).
    destruct (p_id z =? id).
    + rewrite Hname in Hy. apply (Hother x); auto.
    + apply Hn1. rewrite <- Hy. now apply in_map.
Qed.

(** X3.  Product names stay pairwise distinct under every request. *)
Theorem product_names_stay_distinct now r s :
  wf_db s = true ->
  NoDup (map p_name (products s)) ->
  NoDup (map p_name (products (fst (handle now r s)))).
Proof.
  intros Hwf Hnd. apply wf_db_spec in Hwf.
  destruct r; cbn [handle]; auto.
  - unfold register_user. destruct (negb _); auto.
    destruct username as [u|]; auto. destruct password as [p|]; auto.
    unfold Sql.insert_user. destruct (existsb _ _); auto.
  - unfold login_user. destruct (negb _); auto.
    destruct username as [u|]; auto. destruct password as [p|]; auto.
    destruct (Sql.select_user u p s); auto.
  - unfold add_product. destruct (negb _); auto.
    destruct name as [n|]; auto. destruct price as [p|]; auto.
    unfold Sql.insert_product.
    destruct (existsb _ (products s)) eqn:E; auto.
    assert (NoDup (map p_name
                     (products s ++ [mkProduct (seq_products s + 1) n
                                       description p
                                       (get_default initial_quantity 0)])))
      as Hnew.
    { rewrite map_app. simpl. apply NoDup_snoc; auto.
      intros Hin. apply in_map_iff in Hin. destruct Hin as (x & Hx & Hin).
      assert (existsb (fun y => String.eqb (p_name y) n) (products s) = true)
        by (apply existsb_exists; exists x; split; auto;
            now apply String.eqb_eq).
      congruence. }
    cbn [fst]. destruct (_ >? 0); auto.
    unfold Sql.insert_or_ignore_inventory. destruct (is_some _); auto.
  - unfold update_product. destruct (negb _); auto.
    destruct name as [n|]; auto. destruct price as [p|]; auto.
    unfold Sql.update_product.
    destruct (negb _ && existsb _ (products s)) eqn:E; auto.
    assert (NoDup (map p_name
              (map (fun x => if p_id x =? product_id
                             then mkProduct (p_id x) n description p
                                            (p_initial_quantity x)
                             else x) (products s)))) as Hnew.
    { apply andb_false_iff in E. destruct E as [E|E].
      - apply negb_false_iff in E. rewrite find_filter_length in E.
        apply negb_true_iff in E.
        destruct (find (fun x => p_id x =? product_id) (products s)) eqn:F;
          [discriminate|].
        rewrite map_update_none; auto.
        intros x Hx. eapply find_none in F; eauto.
      - apply names_after_update with (n := n); auto; try apply Hwf.
        intros x Hx Hid Hn.
        assert (existsb (fun y => negb (p_id y =? product_id)
                                  && String.eqb (p_name y) n) (products s)
                = true); [|congruence].
        apply existsb_exists. exists x. split; auto.
        apply andb_true_iff. split.
        + now apply negb_true_iff, Z.eqb_neq.
        + now apply String.eqb_eq. }
    destruct (_ =? 0); auto.
  - unfold delete_product. cbn.
    assert (NoDup (map p_name
                     (filter (fun p => negb (p_id p =? product_id)) (products s))))
      by now apply NoDup_map_filter.
    destruct (_ =? 0); auto.
  - unfold add_or_update_inventory. destruct (negb _); auto.
    destruct product_id as [pid|]; auto.
    destruct batch_number as [bn|]; auto.
    destruct quantity as [| |q]; auto.
    destruct (q <=? 0); auto.
    destruct (Sql.select_product pid s); auto.
    destruct (Sql.select_batch pid bn s); auto.
  - unfold delete_inventory_batch. destruct (_ =? 0); auto.
  - destruct (generate_bill now customer_name items discount tax_rate s)
      as [s' r] eqn:E.
    destruct (Z.eq_dec (status r) 201) as [Hr|Hr].
    + destruct (generate_bill_201 _ _ _ _ _ _ _ _ E Hr)
        as (customer & lines & inv' & _ & _ & _ & _ & _ & ->).
      exact Hnd.
    + apply generate_bill_rollback in E; auto. now subst.
Qed.

(** The gadget cannot take the widget's name: the request is not served
    and the names in the shop stay distinct. *)
Lemma product_names_stay_distinct_witness :
  snd (handle "" (PutProduct 2 (Some "widget") None (Some 1%float)) shop)
    = (500, Unhandled)
  /\ NoDup (map p_name
              (products
                 (fst (handle "" (PutProduct 2 (Some "gizmo") None (Some 1%float))
                              shop)))).
Proof.
  split; [reflexivity|].
  apply (product_names_stay_distinct ""
           (PutProduct 2 (Some "gizmo") None (Some 1%float)) shop).
  - reflexivity.
  - simpl. constructor; [simpl; intros [H|[]]; discriminate|].
    constructor; [intros []|constructor].
Defined.


Lemma filter_all {A : Type} (f : A -> bool) (l : list A) :
  (forall x, In x l -> f x = true) -> filter f l = l.
Proof.
  induction l as [|x l IH]; simpl; intros H; auto.
  rewrite (H x) by auto. f_equal. apply IH. auto.
Qed.

(** [add_product] answered with 201, taken apart. *)
Lemma add_product_201 n d p q s s' r :
  add_product n d p q s = (s', r) -> status r = 201 ->
  exists name price,
    n = Some name /\ p = Some price /\
    existsb (fun x => String.eqb (p_name x) name) (products s) = false /\
    products s' = products s
                  ++ [mkProduct (seq_products s + 1) name d price (get_default q 0)] /\
    r = (201, ProductAdded "Product added successfully" (seq_products s + 1)).
Proof.
  unfold add_product.
  destruct (negb _); [intros [= <- <-]; discriminate|].
  destruct n as [name|]; [|intros [= <- <-]; discriminate].
  destruct p as [price|]; [|intros [= <- <-]; discriminate].
  unfold Sql.insert_product.
  destruct (existsb _ (products s)) eqn:E; [intros [= <- <-]; discriminate|].
  intros [= <- <-] _. exists name, price. repeat split; auto.
  destruct (_ >? 0); auto.
  unfold Sql.insert_or_ignore_inventory. destruct (is_some _); auto.
Qed.

(** X4.  A product created by [POST /products] gets an id above every
    product id and every batch's product id in the database, is found
    under that id with the fields of the request, leaves the lookup of
    every other id as it was, and comes last in [GET /products]. *)
Theorem added_product_is_found n d p q s s' msg id :
  wf_db s = true ->
  add_product n d p q s = (s', (201, ProductAdded msg id)) ->
  exists name price,
    n = Some name /\ p = Some price /\
    Sql.select_product id s'
      = Some (mkProduct id name d price (get_default q 0)) /\
    (forall x, In x (products s) -> p_id x < id) /\
    (forall r, In r (inventory s) -> i_product_id r < id) /\
    (forall id', id' <> id ->
                 Sql.select_product id' s' = Sql.select_product id' s) /\
    snd (get_products s')
      = (200, ProductRows
                (products s ++ [mkProduct id name d price (get_default q 0)])).
Proof.
  intros Hwf H. apply wf_db_spec in Hwf.
  destruct (add_product_201 _ _ _ _ _ _ _ H eq_refl)
    as (name & price & -> & -> & _ & Hp & Hr).
  injection Hr as -> ->.
  destruct Hwf as [_ _ _ [_ Wp] _ _ Wr _ _].
  rewrite Forall_forall in Wp, Wr.
  assert (forall x, In x (products s) -> p_id x < seq_products s + 1) as Hlt.
  { intros x Hx. specialize (Wp (p_id x) (in_map _ _ _ Hx)). lia. }
  exists name, price. split; [reflexivity|]. split; [reflexivity|].
  unfold Sql.select_product, get_products. rewrite Hp.
  split; [|split; [exact Hlt|split; [|split; [|reflexivity]]]].
  - rewrite find_snoc_fresh.
    + simpl. now rewrite Z.eqb_refl.
    + intros y Hy. apply Z.eqb_neq. specialize (Hlt y Hy). lia.
  - intros r Hr. specialize (Wr r Hr). lia.
  - intros id' Hne. apply find_snoc_other. simpl. apply Z.eqb_neq. lia.
Qed.

Lemma added_product_is_found_witness :
  exists name price,
    Some "gizmo" = Some name /\ Some 1%float = Some price /\
    Sql.select_product 3
      (fst (add_product (Some "gizmo") None (Some 1%float) None shop))
      = Some (mkProduct 3 name None price (get_default None 0)) /\
    (forall x, In x (products shop) -> p_id x < 3) /\
    (forall r, In r (inventory shop) -> i_product_id r < 3) /\
    (forall id', id' <> 3 ->
       Sql.select_product id'
         (fst (add_product (Some "gizmo") None (Some 1%float) None shop))
       = Sql.select_product id' shop) /\
    snd (get_products
           (fst (add_product (Some "gizmo") None (Some 1%float) None shop)))
      = (200, ProductRows
                (products shop
                   ++ [mkProduct 3 name None price (get_default None 0)])).
Proof.
  apply (added_product_is_found (Some "gizmo") None (Some 1%float) None shop
           _ "Product added successfully" 3).
  - reflexivity.
  - reflexivity.
Defined.



(** X6.  After [PUT /products/<id>] is answered with 200 the product is
    found under its id with the name, description and price of the
    request and the [initial_quantity] it had; every other product,
    [inventory], [bills] and [bill_items] are as before. *)
Theorem updated_product_is_found id n d p s s' r :
  wf_db s = true ->
  update_product id n d p s = (s', r) -> status r = 200 ->
  exists name price old,
    n = Some name /\ p = Some price /\
    Sql.select_product id s = Some old /\
    Sql.select_product id s'
      = Some (mkProduct id name d price (p_initial_quantity old)) /\
    (forall id', id' <> id ->
                 Sql.select_product id' s' = Sql.select_product id' s) /\
    inventory s' = inventory s /\ bills s' = bills s /\
    bill_items s' = bill_items s.
Proof.
  intros Hwf. apply wf_db_spec in Hwf. unfold update_product.
  destruct (negb _); [intros [= <- <-]; discriminate|].
  destruct n as [name|]; [|intros [= <- <-]; discriminate].
  destruct p as [price|]; [|intros [= <- <-]; discriminate].
  unfold Sql.update_product.
  destruct (negb _ && existsb _ (products s)); [intros [= <- <-]; discriminate|].
  rewrite find_filter_length.
  destruct (find (fun x => p_id x =? id) (products s)) as [old|] eqn:F;
    [|intros [= <- <-]; discriminate].
  cbn [is_some negb]. intros [= <- _] _.
  exists name, price, old. unfold Sql.select_product.
  cbn [products with_products inventory bills bill_items].
  repeat split; auto.
  - rewrite find_map_update by reflexivity. rewrite F. simpl.
    apply find_some in F. destruct F as [_ F]. rewrite F.
    apply Z.eqb_eq in F. now rewrite F.
  - intros id' Hne. rewrite find_map_update by reflexivity.
    destruct (find (fun x => p_id x =? id') (products s)) as [x|] eqn:F';
      simpl; auto.
    apply find_some in F'. destruct F' as [_ F']. apply Z.eqb_eq in F'.
    destruct (Z.eqb_spec (p_id x) id); [congruence|reflexivity].
Qed.

Lemma updated_product_is_found_witness :
  exists name price old,
    Some "widget mk2" = Some name /\ Some 12.5%float = Some price /\
    Sql.select_product 1 shop = Some old /\
    Sql.select_product 1
      (fst (update_product 1 (Some "widget mk2") (Some "new") (Some 12.5%float) shop))
      = Some (mkProduct 1 name (Some "new") price (p_initial_quantity old)) /\
    (forall id', id' <> 1 ->
       Sql.select_product id'
         (fst (update_product 1 (Some "widget mk2") (Some "new")
                              (Some 12.5%float) shop))
       = Sql.select_product id' shop) /\
    inventory (fst (update_product 1 (Some "widget mk2") (Some "new")
                                   (Some 12.5%float) shop)) = inventory shop /\
    bills (fst (update_product 1 (Some "widget mk2") (Some "new")
                               (Some 12.5%float) shop)) = bills shop /\
    bill_items (fst (update_product 1 (Some "widget mk2") (Some "new")
                                    (Some 12.5%float) shop)) = bill_items shop.
Proof.
  apply (updated_product_is_found 1 (Some "widget mk2") (Some "new")
           (Some 12.5%float) shop _ (200, Message "Product updated successfully")).
  - reflexivity.
  - reflexivity.
  - reflexivity.
Defined.





(** * The inventory *)

(** X9.  [GET /inventory] answers with one row for each batch whose
    product is in the catalog, in table order and carrying that product's
    name, description and price, and with no row for any other batch. *)
Theorem get_inventory_lists_catalogued_batches s :
  wf_db s = true ->
  snd (get_inventory s)
    = (200, InventoryRows (flat_map (inventory_view_of s) (inventory s)))
  /\ List.length (flat_map (inventory_view_of s) (inventory s))
     = List.length
         (filter (fun i => is_some (Sql.select_product (i_product_id i) s))
                 (inventory s)).
Proof.
  intros Hwf. apply wf_db_spec in Hwf. split.
  - unfold get_inventory. cbn [snd]. do 2 f_equal.
    apply flat_map_ext. intros i.
    rewrite join_unique by apply Hwf.
    unfold inventory_view_of, Sql.select_product.
    now destruct (find _ (products s)).
  - induction (inventory s) as [|i l IH]; simpl; auto.
    rewrite length_app, IH. unfold inventory_view_of.
    destruct (Sql.select_product (i_product_id i) s); reflexivity.
Qed.

(** With the widget deleted from the shop only the gadget's batch is
    listed. *)
Lemma get_inventory_lists_catalogued_batches_witness :
  snd (get_inventory (fst (delete_product 1 shop)))
    = (200, InventoryRows
              [mkInventoryView 3 "gadget" (Some "small") 2.5%float
                               "INITIAL-2" 4 2])
  /\ snd (get_inventory (fst (delete_product 1 shop)))
     = (200, InventoryRows
               (flat_map (inventory_view_of (fst (delete_product 1 shop)))
                         (inventory (fst (delete_product 1 shop)))))
  /\ List.length (flat_map (inventory_view_of (fst (delete_product 1 shop)))
                           (inventory (fst (delete_product 1 shop))))
     = List.length
         (filter (fun i => is_some (Sql.select_product (i_product_id i)
                                      (fst (delete_product 1 shop))))
                 (inventory (fst (delete_product 1 shop)))).
Proof.
  split; [reflexivity|].
  apply (get_inventory_lists_catalogued_batches (fst (delete_product 1 shop))).
  reflexivity.
Defined.

(** An id that has been handed out and is not in the catalog stays so. *)
Lemma handle_keeps_vacant now r s pid :
  pid <= seq_products s -> Sql.select_product pid s = None ->
  pid <= seq_products (fst (handle now r s))
  /\ Sql.select_product pid (fst (handle now r s)) = None.
Proof.
  intros Hseq Hnone.
  assert (forall s' : db,
            products s' = products s -> seq_products s' = seq_products s ->
            pid <= seq_products s' /\ Sql.select_product pid s' = None) as Hsame.
  { intros s' Hp Hs. unfold Sql.select_product in *. now rewrite Hp, Hs. }
  destruct r; cbn [handle]; try (apply Hsame; reflexivity).
  - unfold register_user. destruct (negb _); [now apply Hsame|].
    destruct username as [u|]; [|now apply Hsame].
    destruct password as [p|]; [|now apply Hsame].
    unfold Sql.insert_user. destruct (existsb _ _); now apply Hsame.
  - unfold login_user. destruct (negb _); [now apply Hsame|].
    destruct username as [u|]; [|now apply Hsame].
    destruct password as [p|]; [|now apply Hsame].
    destruct (Sql.select_user u p s); now apply Hsame.
  - destruct (add_product name description price initial_quantity s)
      as [s' r] eqn:E. cbn [fst].
    destruct (Z.eq_dec (status r) 201) as [Hr|Hr].
    + assert (seq_products s' = seq_products s + 1) as Hs.
      { revert E. unfold add_product. destruct (negb _); [intros [= <- <-]; discriminate|].
        destruct name as [n|]; [|intros [= <- <-]; discriminate].
        destruct price as [p|]; [|intros [= <- <-]; discriminate].
        unfold Sql.insert_product.
        destruct (existsb _ _); [intros [= <- <-]; discriminate|].
        intros [= <- _]. destruct (_ >? 0); auto.
        unfold Sql.insert_or_ignore_inventory. destruct (is_some _); auto. }
      destruct (add_product_201 _ _ _ _ _ _ _ E Hr)
        as (n & p & _ & _ & _ & Hp & _).
      split; [lia|]. unfold Sql.select_product in *. rewrite Hp.
      rewrite find_snoc_other; auto. simpl. apply Z.eqb_neq. lia.
    + assert (s' = s) as ->; auto.
      revert E Hr. unfold add_product.
      destruct (negb _); [now intros [= <- <-]|].
      destruct name as [n|]; [|now intros [= <- <-]].
      destruct price as [p|]; [|now intros [= <- <-]].
      unfold Sql.insert_product.
      destruct (existsb _ (products s)); [now intros [= <- <-]|].
      intros [= <- <-]. simpl. congruence.
  - unfold update_product. destruct (negb _); auto.
    destruct name as [n|]; auto. destruct price as [p|]; auto.
    unfold Sql.update_product. destruct (_ && _); auto.
    assert (forall x : db * response,
              seq_products (fst x) = seq_products s ->
              products (fst x)
              = map (fun y => if p_id y =? product_id
                              then mkProduct (p_id y) n description p
                                             (p_initial_quantity y)
                              else y) (products s) ->
              pid <= seq_products (fst x)
              /\ Sql.select_product pid (fst x) = None) as Hupd.
    { intros x Hs Hp. split; [lia|]. unfold Sql.select_product in *.
      rewrite Hp, find_map_update by reflexivity. now rewrite Hnone. }
    destruct (_ =? 0); apply Hupd; reflexivity.
  - split.
    + unfold delete_product. cbn. destruct (_ =? 0); auto.
    + rewrite select_product_after_delete, Hnone. now destruct (pid =? product_id).
  - unfold add_or_update_inventory. destruct (negb _); [now apply Hsame|].
    destruct product_id as [pid'|]; [|now apply Hsame].
    destruct batch_number as [bn|]; [|now apply Hsame].
    destruct quantity as [| |q]; try now apply Hsame.
    destruct (q <=? 0); [now apply Hsame|].
    destruct (Sql.select_product pid' s); [|now apply Hsame].
    destruct (Sql.select_batch pid' bn s); now apply Hsame.
  - unfold delete_inventory_batch. destruct (_ =? 0); now apply Hsame.
  - destruct (generate_bill now customer_name items discount tax_rate s)
      as [s' r] eqn:E.
    destruct (Z.eq_dec (status r) 201) as [Hr|Hr].
    + destruct (generate_bill_201 _ _ _ _ _ _ _ _ E Hr)
        as (customer & lines & inv' & _ & _ & _ & _ & _ & ->).
      now apply Hsame.
    + apply generate_bill_rollback in E; auto. subst. now apply Hsame.
Qed.

Lemma run_keeps_vacant rs s pid :
  pid <= seq_products s -> Sql.select_product pid s = None ->
  Sql.select_product pid (run rs s) = None.
Proof.
  revert s. induction rs as [|[now r] rs IH]; intros s Hseq Hnone; simpl; auto.
  destruct (handle_keeps_vacant now r s pid Hseq Hnone). now apply IH.
Qed.

Lemma item_ids_of_lines (lines : list billed_line) :
  item_ids (map item_of lines) = map line_product lines.
Proof.
  induction lines as [|[[pid q] price] lines IH]; simpl; auto.
  now rewrite <- IH.
Qed.

(** X10.  The id of a deleted product is never handed out again: after the
    deletion and any requests that follow it the id is not in the catalog,
    an order with an item for it is not accepted and changes nothing,
    [POST /inventory] for it is not accepted and changes nothing, and
    [GET /inventory] shows no batch of it. *)
Theorem deleted_product_id_stays_vacant pid s :
  wf_db s = true -> status (snd (delete_product pid s)) = 200 ->
  forall rs,
    let s2 := run rs (fst (delete_product pid s)) in
    Sql.select_product pid s2 = None /\
    (forall now c l d t,
       In pid (item_ids l) ->
       fst (generate_bill now c (Items l) d t s2) = s2 /\
       status (snd (generate_bill now c (Items l) d t s2)) <> 201) /\
    (forall bn q,
       fst (add_or_update_inventory (Some pid) bn q s2) = s2 /\
       status (snd (add_or_update_inventory (Some pid) bn q s2)) <> 201) /\
    (forall rows,
       snd (get_inventory s2) = (200, InventoryRows rows) ->
       Forall (fun v => iv_product_id v <> pid) rows).
Proof.
  intros Hwf Hdel rs s2. apply wf_db_spec in Hwf.
  assert (Sql.select_product pid s2 = None) as Hnone.
  { apply run_keeps_vacant.
    - assert (is_some (Sql.select_product pid s) = true) as Hp.
      { revert Hdel. unfold delete_product. cbn. rewrite find_filter_length.
        unfold Sql.select_product.
        destruct (find _ (products s)); simpl; auto; discriminate. }
      destruct (Sql.select_product pid s) as [p|] eqn:F; [|discriminate].
      apply select_product_bound in F; auto.
      unfold delete_product. cbn. destruct (_ =? 0); simpl; lia.
    - rewrite select_product_after_delete. now rewrite Z.eqb_refl. }
  split; [exact Hnone|]. split; [|split].
  - intros now c l d t Hin.
    assert (status (snd (generate_bill now c (Items l) d t s2)) <> 201) as Hst.
    { intros Hst.
      destruct (generate_bill now c (Items l) d t s2) as [s' r] eqn:E.
      destruct (generate_bill_201 _ _ _ _ _ _ _ _ E Hst)
        as (customer & lines & inv' & _ & Hl & Hp & _).
      injection Hl as ->. rewrite item_ids_of_lines in Hin.
      apply in_map_iff in Hin. destruct Hin as ([[x q] price] & Hx & Hin).
      rewrite Forall_forall in Hp. specialize (Hp _ Hin).
      unfold line_product in Hx. simpl in Hx, Hp. subst x.
      destruct Hp as (p & Hp & _). congruence. }
    split; auto.
    destruct (generate_bill now c (Items l) d t s2) as [s' r] eqn:E.
    eapply generate_bill_rollback; eauto.
  - intros bn q. unfold add_or_update_inventory.
    destruct (negb _); [split; [reflexivity|discriminate]|].
    destruct bn as [bn|]; [|split; [reflexivity|discriminate]].
    destruct q as [| |q]; try (split; [reflexivity|discriminate]).
    destruct (q <=? 0); [split; [reflexivity|discriminate]|].
    rewrite Hnone. split; [reflexivity|discriminate].
  - intros rows [= <-]. apply Forall_forall. intros v Hv.
    apply in_flat_map in Hv. destruct Hv as (i & _ & Hv).
    apply in_map_iff in Hv. destruct Hv as (p & <- & Hp).
    apply filter_In in Hp. destruct Hp as [Hp E]. apply Z.eqb_eq in E.
    simpl. intros Hpid.
    unfold Sql.select_product in Hnone.
    eapply find_none in Hnone; eauto.
    apply Z.eqb_neq in Hnone. congruence.
Qed.

(** The widget is deleted, a new product and new stock arrive: seven
    widgets still cannot be billed or restocked. *)
Lemma deleted_product_id_stays_vacant_witness :
  let rs := [("", PostProducts (Some "widget") None (Some 10%float) (Some 5));
             ("", PostInventory (Some 3) (Some "B9") (Int 1))] in
  let s2 := run rs (fst (delete_product 1 shop)) in
  batches_of 1 s2 = [mkBatch 1 1 "B1" 5; mkBatch 2 1 "B2" 5]
  /\ Sql.select_product 1 s2 = None
  /\ snd (generate_bill "" (Some "Ada") (Items [line 1 7]) None None s2)
     = (400, Error "Product with ID 1 not found.")
  /\ snd (add_or_update_inventory (Some 1) (Some "B3") (Int 2) s2)
     = (404, Error "Product not found").
Proof.
  intros rs s2.
  pose proof (deleted_product_id_stays_vacant 1 shop eq_refl eq_refl rs) as H.
  split; [reflexivity|]. split; [apply H|]. split; reflexivity.
Defined.

Lemma split_at_row (inv : list batch) (r : batch) :
  NoDup (map i_id inv) -> In r inv ->
  exists l1 l2,
    inv = l1 ++ r :: l2 /\
    (forall x, In x l1 -> (i_id x =? i_id r) = false) /\
    (forall x, In x l2 -> (i_id x =? i_id r) = false).
Proof.
  intros Hnd Hin. apply in_split in Hin. destruct Hin as (l1 & l2 & ->).
  exists l1, l2. split; [reflexivity|].
  rewrite map_app in Hnd. simpl in Hnd. apply NoDup_remove_2 in Hnd.
  split; intros x Hx; apply Z.eqb_neq; intros E; apply Hnd;
    rewrite <- E; apply in_app_iff; [left|right]; now apply in_map.
Qed.

Lemma update_one_row (inv : list batch) (r : batch) (q' : Z) :
  NoDup (map i_id inv) -> In r inv ->
  exists l1 l2,
    inv = l1 ++ r :: l2 /\
    map (fun x => if i_id x =? i_id r
                  then mkBatch (i_id x) (i_product_id x) (i_batch_number x) q'
                  else x) inv
    = l1 ++ set_quantity q' r :: l2.
Proof.
  intros Hnd Hin.
  destruct (split_at_row inv r Hnd Hin) as (l1 & l2 & -> & H1 & H2).
  exists l1, l2. split; [reflexivity|].
  rewrite map_app. simpl. rewrite Z.eqb_refl.
  now rewrite !map_update_none by assumption.
Qed.



(** X11.  [POST /inventory] answered with 201 raises the stock of the
    product it names by exactly the quantity of the request, whether the
    label is new or not, and leaves the batches of every other product
    and the other tables as they were. *)
Theorem restocking_adds_to_stock pid bn q s s' r :
  wf_db s = true ->
  add_or_update_inventory pid bn q s = (s', r) -> status r = 201 ->
  exists id label n,
    pid = Some id /\ bn = Some label /\ q = Int n /\ 0 < n /\
    stock id s' = stock id s + n /\
    (forall id', id' <> id -> batches_of id' s' = batches_of id' s) /\
    products s' = products s /\ bills s' = bills s /\
    bill_items s' = bill_items s.
Proof.
  intros Hwf. apply wf_db_spec in Hwf. unfold add_or_update_inventory.
  destruct (negb _); [intros [= <- <-]; discriminate|].
  destruct pid as [id|]; [|intros [= <- <-]; discriminate].
  destruct bn as [label|]; [|intros [= <- <-]; discriminate].
  destruct q as [| |n]; try (intros [= <- <-]; discriminate).
  destruct (Z.leb_spec n 0); [intros [= <- <-]; discriminate|].
  destruct (Sql.select_product id s); [|intros [= <- <-]; discriminate].
  destruct (Sql.select_batch id label s) as [x|] eqn:Hx; intros [= <- _] _;
    exists id, label, n; repeat split; auto.
  - unfold Sql.select_batch in Hx. apply find_some in Hx.
    destruct Hx as [Hin Hkey]. apply andb_true_iff in Hkey.
    destruct Hkey as [Hpid _].
    destruct (update_one_row (inventory s) x (i_quantity x + n)) as
      (l1 & l2 & Hinv & Hupd); auto; [apply Hwf|].
    unfold stock, batches_of, Sql.update_inventory_quantity.
    cbn [inventory with_inventory]. rewrite Hupd, Hinv, !filter_app.
    simpl. rewrite Hpid. rewrite !sum_quantities_app, !sum_quantities_cons.
    simpl. lia.
  - intros id' Hne. unfold Sql.select_batch in Hx. apply find_some in Hx.
    destruct Hx as [Hin Hkey]. apply andb_true_iff in Hkey.
    destruct Hkey as [Hpid _]. apply Z.eqb_eq in Hpid.
    destruct (update_one_row (inventory s) x (i_quantity x + n)) as
      (l1 & l2 & Hinv & Hupd); auto; [apply Hwf|].
    unfold batches_of, Sql.update_inventory_quantity.
    cbn [inventory with_inventory]. rewrite Hupd, Hinv, !filter_app.
    simpl. destruct (Z.eqb_spec (i_product_id x) id'); [congruence|reflexivity].
  - unfold stock, batches_of. simpl. rewrite filter_app. simpl.
    rewrite Z.eqb_refl, sum_quantities_app, sum_quantities_cons.
    change (sum_quantities []) with 0. cbn [i_quantity]. lia.
  - intros id' Hne. unfold batches_of. simpl. rewrite filter_app. simpl.
    destruct (Z.eqb_spec id id'); [congruence|]. now rewrite app_nil_r.
Qed.

(** Six more widgets under the label B1 and six under a new label. *)
Lemma restocking_adds_to_stock_witness :
  (stock 1 (fst (add_or_update_inventory (Some 1) (Some "B1") (Int 6) shop)) = 16
   /\ stock 1 (fst (add_or_update_inventory (Some 1) (Some "B7") (Int 6) shop)) = 16)
  /\ exists id label n,
       Some 1 = Some id /\ Some "B1" = Some label /\ Int 6 = Int n /\ 0 < n /\
       stock id (fst (add_or_update_inventory (Some 1) (Some "B1") (Int 6) shop))
         = stock id shop + n /\
       (forall id', id' <> id ->
          batches_of id'
            (fst (add_or_update_inventory (Some 1) (Some "B1") (Int 6) shop))
          = batches_of id' shop) /\
       products (fst (add_or_update_inventory (Some 1) (Some "B1") (Int 6) shop))
         = products shop /\
       bills (fst (add_or_update_inventory (Some 1) (Some "B1") (Int 6) shop))
         = bills shop /\
       bill_items (fst (add_or_update_inventory (Some 1) (Some "B1") (Int 6) shop))
         = bill_items shop.
Proof.
  split; [split; reflexivity|].
  apply (restocking_adds_to_stock (Some 1) (Some "B1") (Int 6) shop _
           (201, Message "Inventory quantity updated successfully")).
  - reflexivity.
  - reflexivity.
  - reflexivity.
Defined.









Lemma deduct_rows_keys (ds : list (Z * Z)) (inv : list batch) :
  NoDup (map batch_key inv) -> NoDup (map batch_key (deduct_rows ds inv)).
Proof.
  unfold deduct_rows. revert inv.
  induction ds as [|d ds IH]; intros inv H; simpl; auto.
  apply IH. unfold deduct_row. destruct (fst d =? 0).
  - now apply NoDup_map_filter.
  - now rewrite map_update_same with (g := batch_key).
Qed.

Lemma process_items_keys (items : list item) (w : db) (tot : float)
    (acc : list billed_line) (w' : db) (tot' : float) (acc' : list billed_line) :
  NoDup (map batch_key (inventory w)) ->
  process_items items (w, tot, acc) = Ok (w', tot', acc') ->
  NoDup (map batch_key (inventory w')).
Proof.
  revert w tot acc. induction items as [|it items IH]; intros w tot acc Hnd; simpl.
  - now intros [= <- <- <-].
  - destruct (process_item it (w, tot, acc)) as [[[w1 tot1] acc1]|] eqn:E;
      [|intros; discriminate].
    apply IH. apply process_item_inv in E.
    destruct E as (pid & q & p & _ & _ & _ & _ & _ & -> & _).
    simpl. now apply deduct_rows_keys.
Qed.

Lemma fresh_batch_key (pid : Z) (label : string) (s : db) :
  Sql.select_batch pid label s = None ->
  ~ In (pid, label) (map batch_key (inventory s)).
Proof.
  unfold Sql.select_batch. intros F Hin.
  apply in_map_iff in Hin. destruct Hin as (x & Hx & Hin).
  eapply find_none in F; eauto. unfold batch_key in Hx.
  injection Hx as <- <-. now rewrite Z.eqb_refl, String.eqb_refl in F.
Qed.

(** X14.  No two batches of a product ever carry the same label: the
    pairs (product id, batch label) of [inventory] stay pairwise distinct
    under every request. *)
Theorem batch_labels_stay_distinct now r s :
  NoDup (map batch_key (inventory s)) ->
  NoDup (map batch_key (inventory (fst (handle now r s)))).
Proof.
  intros Hnd. destruct r; cbn [handle]; auto.
  - unfold register_user. destruct (negb _); auto.
    destruct username as [u|]; auto. destruct password as [p|]; auto.
    unfold Sql.insert_user. destruct (existsb _ _); auto.
  - unfold login_user. destruct (negb _); auto.
    destruct username as [u|]; auto. destruct password as [p|]; auto.
    destruct (Sql.select_user u p s); auto.
  - unfold add_product. destruct (negb _); auto.
    destruct name as [n|]; auto. destruct price as [p|]; auto.
    unfold Sql.insert_product. destruct (existsb _ _); auto.
    cbn [fst]. destruct (_ >? 0); auto.
    unfold Sql.add_inventory_quantity. cbn [inventory with_inventory].
    rewrite map_update_same with (g := batch_key) by reflexivity.
    unfold Sql.insert_or_ignore_inventory.
    destruct (Sql.select_batch _ _ _) eqn:F; cbn [is_some]; auto.
    apply fresh_batch_key in F. cbn [inventory Sql.insert_inventory] in *.
    rewrite map_app. now apply NoDup_snoc.
  - unfold update_product. destruct (negb _); auto.
    destruct name as [n|]; auto. destruct price as [p|]; auto.
    unfold Sql.update_product. destruct (_ && _); auto.
    destruct (_ =? 0); auto.
  - unfold delete_product. cbn. destruct (_ =? 0); auto.
  - unfold add_or_update_inventory. destruct (negb _); auto.
    destruct product_id as [pid|]; auto.
    destruct batch_number as [bn|]; auto.
    destruct quantity as [| |q]; auto.
    destruct (q <=? 0); auto.
    destruct (Sql.select_product pid s); auto.
    destruct (Sql.select_batch pid bn s) eqn:F; cbn [fst].
    + unfold Sql.update_inventory_quantity. cbn [inventory with_inventory].
      now rewrite map_update_same with (g := batch_key).
    + apply fresh_batch_key in F. cbn [inventory Sql.insert_inventory].
      rewrite map_app. now apply NoDup_snoc.
  - unfold delete_inventory_batch.
    assert (NoDup (map batch_key
                     (inventory (Sql.delete_inventory inventory_id s))))
      by (simpl; now apply NoDup_map_filter).
    destruct (_ =? 0); auto.
  - destruct (generate_bill now customer_name items discount tax_rate s)
      as [s' r] eqn:E.
    destruct (Z.eq_dec (status r) 201) as [Hr|Hr].
    + destruct (generate_bill_201 _ _ _ _ _ _ _ _ E Hr)
        as (customer & lines & inv' & _ & _ & _ & Hp & _ & ->).
      apply process_items_keys in Hp; auto.
    + apply generate_bill_rollback in E; auto. now subst.
Qed.

Lemma batch_labels_stay_distinct_witness :
  NoDup (map batch_key
           (inventory
              (fst (handle "" (PostInventory (Some 1) (Some "B2") (Int 4)) shop)))).
Proof.
  apply (batch_labels_stay_distinct ""
           (PostInventory (Some 1) (Some "B2") (Int 4)) shop).
  simpl. repeat constructor; simpl; intuition discriminate.
Defined.



(** * More on billing *)

Lemma filter_flat_map_product (pid : Z) (f : batch -> list batch)
    (l : list batch) :
  (forall r r', In r' (f r) -> i_product_id r' = i_product_id r) ->
  filter (fun r => i_product_id r =? pid) (flat_map f l)
  = flat_map f (filter (fun r => i_product_id r =? pid) l).
Proof.
  intros Hf. induction l as [|x l IH]; simpl; auto.
  rewrite filter_app, IH.
  destruct (i_product_id x =? pid) eqn:E; simpl.
  - f_equal. apply filter_all. intros r' Hr'. now rewrite (Hf _ _ Hr').
  - rewrite filter_none; auto. intros r' Hr'. now rewrite (Hf _ _ Hr').
Qed.

Lemma sum_quantities_flat_map_perm (f : batch -> list batch)
    (l l' : list batch) :
  Permutation l l' ->
  sum_quantities (flat_map f l) = sum_quantities (flat_map f l').
Proof.
  intros H. apply sum_quantities_perm. now apply Permutation_flat_map.
Qed.

(** What is left of the batches of a product, in billing order, once the
    plan is carried out. *)
Lemma fifo_outcome_on_batches (gone : list batch) (b : batch)
    (rest : list batch) (remaining : Z) :
  NoDup (map i_id (gone ++ b :: rest)) ->
  sum_quantities (flat_map (fifo_outcome gone b remaining) (gone ++ b :: rest))
  = remaining + sum_quantities rest.
Proof.
  intros Hnd.
  assert (forall g, In g gone -> fifo_outcome gone b remaining g = []) as Hg.
  { intros g Hin. unfold fifo_outcome.
    assert (existsb (fun x => i_id g =? i_id x) gone = true) as ->; auto.
    apply existsb_exists. exists g. split; auto. apply Z.eqb_refl. }
  assert (forall x, In x (b :: rest) ->
            existsb (fun g => i_id x =? i_id g) gone = false) as Hout.
  { intros x Hx. destruct (existsb _ gone) eqn:E; auto.
    apply existsb_exists in E. destruct E as (g & Hgin & E).
    apply Z.eqb_eq in E. exfalso.
    rewrite map_app in Hnd. apply NoDup_app_remove_l in Hnd as Hnd2.
    clear Hnd2. revert Hnd. rewrite <- map_app. intros Hnd.
    assert (x = g).
    { eapply NoDup_map_inj; eauto; apply in_app_iff; auto. }
    subst x. clear - Hnd Hgin Hx.
    induction gone as [|y gone IH]; simpl in *; [tauto|].
    inversion Hnd as [|? ? Hn Hnd']; subst.
    destruct Hgin as [->|Hgin]; [|now apply IH].
    apply Hn. apply in_map. apply in_app_iff. now right. }
  assert (forall x, In x rest -> (i_id x =? i_id b) = false) as Hrest.
  { intros x Hx. apply Z.eqb_neq. intros E.
    rewrite map_app in Hnd. apply NoDup_app_remove_l in Hnd.
    simpl in Hnd. inversion Hnd as [|? ? Hn _]; subst.
    apply Hn. rewrite <- E. now apply in_map. }
  rewrite flat_map_app.
  assert (flat_map (fifo_outcome gone b remaining) gone = []) as ->.
  { clear - Hg. generalize dependent Hg.
    generalize (fifo_outcome gone b remaining) as f. intros f Hg.
    induction gone as [|g l IH]; simpl; auto.
    rewrite (Hg g) by (now left). simpl. apply IH. intros; apply Hg. now right. }
  simpl app. cbn [flat_map]. rewrite sum_quantities_app.
  assert (flat_map (fifo_outcome gone b remaining) rest = rest) as ->.
  { assert (forall x, In x rest -> fifo_outcome gone b remaining x = [x]) as Hk.
    { intros x Hx. unfold fifo_outcome.
      rewrite Hout by (now right). now rewrite (Hrest x Hx). }
    clear - Hk. induction rest as [|x l IH]; simpl; auto.
    rewrite (Hk x) by (now left). simpl. f_equal. apply IH.
    intros; apply Hk. now right. }
  unfold fifo_outcome. rewrite Hout by (now left). rewrite Z.eqb_refl.
  destruct (Z.eqb_spec remaining 0) as [->|Hne].
  - change (sum_quantities []) with 0. lia.
  - rewrite sum_quantities_cons. change (sum_quantities []) with 0.
    simpl. lia.
Qed.

(** An accepted item takes exactly its quantity from the stock of its
    product and nothing from any other. *)
Lemma process_item_stock pid q w tot acc w' tot' acc' :
  wf w ->
  process_item (line pid q) (w, tot, acc) = Ok (w', tot', acc') ->
  stock pid w' = stock pid w - q /\
  (forall pid', pid' <> pid -> stock pid' w' = stock pid' w).
Proof.
  intros Hwf H.
  pose proof (process_item_inv _ _ _ _ _ _ _ H)
    as (pid' & q' & p & Hl & _ & Hq & Hsel & _).
  injection Hl as <- <-.
  destruct (process_item_cases pid q p w tot acc Hwf Hq Hsel)
    as [[_ E]|(_ & gone & b & rest & Hb & Hrange & E)]; [congruence|].
  rewrite E in H. injection H as <- _ _. split.
  - unfold stock at 1. unfold batches_of. cbn [inventory with_inventory].
    rewrite filter_flat_map_product by apply fifo_outcome_product.
    fold (batches_of pid w).
    rewrite (sum_quantities_flat_map_perm _ _ (gone ++ b :: rest)).
    + rewrite fifo_outcome_on_batches.
      * rewrite <- select_batches_stock, Hb.
        rewrite sum_quantities_app, sum_quantities_cons. lia.
      * rewrite <- Hb. eapply Permutation_NoDup.
        -- apply Permutation_map. symmetry. apply select_batches_perm.
        -- apply NoDup_map_filter. apply Hwf.
    + rewrite <- Hb. symmetry. apply select_batches_perm.
  - intros pid' Hne. unfold stock.
    now rewrite (fifo_outcome_other w pid pid' gone b rest _ Hwf Hb Hne).
Qed.

Lemma demand_nonneg (pid : Z) (o : order) :
  Forall (fun l => 0 < snd l) o -> 0 <= demand pid o.
Proof.
  induction 1 as [|l o Hl Ho IH]; simpl; [lia|].
  destruct (fst l =? pid); lia.
Qed.

(** The items of an order of valid shape all go through exactly when, for
    every product, what the order asks of it is in stock; the stock of
    every product then drops by what the order asked of it. *)
Lemma process_items_demand (o : order) (w : db) (tot : float)
    (acc : list billed_line) :
  wf w -> valid_items w o = true ->
  match process_items (items_of o) (w, tot, acc) with
  | Ok (w', _, _) =>
      (forall pid, demand pid o <= stock pid w) /\
      (forall pid, stock pid w' = stock pid w - demand pid o)
  | ValueError _ => exists pid, stock pid w < demand pid o
  end.
Proof.
  revert w tot acc. induction o as [|[pid q] o IH]; intros w tot acc Hwf Hv.
  - simpl. split; intros pid; [|lia].
    rewrite <- select_batches_stock.
    assert (Forall (fun r => 0 < i_quantity r) (Sql.select_batches pid w)) as Hpos.
    { apply Forall_forall. intros r Hr. apply select_batches_In in Hr.
      destruct Hwf as [_ _ _ _ _ _ _ Wq _]. rewrite Forall_forall in Wq.
      apply Wq. tauto. }
    clear - Hpos. induction Hpos as [|x l Hx Hl IHl].
    + now change (sum_quantities []) with 0.
    + rewrite sum_quantities_cons. lia.
  - simpl in Hv. apply andb_true_iff in Hv. destruct Hv as [Hv Hvo].
    apply andb_true_iff in Hv. destruct Hv as [Hp Hq].
    apply Z.ltb_lt in Hq.
    destruct (Sql.select_product pid w) as [p|] eqn:Hsel; [|discriminate].
    assert (Forall (fun l => 0 < snd l) o) as Hpos.
    { apply Forall_forall. intros l Hl. unfold valid_items in Hvo.
      rewrite forallb_forall in Hvo. specialize (Hvo l Hl).
      apply andb_true_iff in Hvo. destruct Hvo as [_ Hvo].
      now apply Z.ltb_lt. }
    cbn [items_of map fst snd process_items].
    destruct (process_item (line pid q) (w, tot, acc))
      as [[[w1 tot1] acc1]|msg] eqn:E.
    + pose proof (process_item_stock _ _ _ _ _ _ _ _ Hwf E) as [Hs Hother].
      assert (wf w1) as Hwf1 by (eapply process_item_wf; eauto).
      assert (valid_items w1 o = true) as Hv1.
      { apply process_item_inv in E.
        destruct E as (? & ? & ? & _ & _ & _ & _ & _ & -> & _). exact Hvo. }
      specialize (IH w1 tot1 acc1 Hwf1 Hv1). fold (items_of o).
      destruct (process_items (items_of o) (w1, tot1, acc1))
        as [[[w2 tot2] acc2]|msg].
      * destruct IH as [IH1 IH2]. split; intros x; simpl;
          specialize (IH1 x); specialize (IH2 x);
          destruct (Z.eqb_spec pid x) as [<-|Hne];
          rewrite ?Hs in *; rewrite ?(Hother x) in * by congruence; lia.
      * destruct IH as (x & Hx). exists x. simpl.
        destruct (Z.eqb_spec pid x) as [<-|Hne];
          rewrite ?Hs in *; rewrite ?(Hother x) in * by congruence; lia.
    + exists pid. simpl. rewrite Z.eqb_refl.
      destruct (process_item_cases pid q p w tot acc Hwf Hq Hsel)
        as [[Hlt _]|(_ & gone & b & rest & _ & _ & E')]; [|congruence].
      pose proof (demand_nonneg pid o Hpos). lia.
Qed.

Lemma items_of_lines (lines : list billed_line) :
  map item_of lines = items_of (map fst lines).
Proof.
  unfold items_of. rewrite map_map. apply map_ext.
  now intros [[pid q] price].
Qed.

Lemma process_items_valid_items (lines : list billed_line) (w : db)
    (tot : float) (acc : list billed_line) (st : billing) :
  process_items (map item_of lines) (w, tot, acc) = Ok st ->
  valid_items w (map fst lines) = true
  /\ Forall (fun l => fst (fst l) <> 0) lines.
Proof.
  revert w tot acc. induction lines as [|[[pid q] price] lines IH];
    intros w tot acc; simpl; [auto|].
  change (mkItem (Some pid) (Int q)) with (line pid q).
  destruct (process_item (line pid q) (w, tot, acc))
    as [[[w1 tot1] acc1]|] eqn:E; [|discriminate].
  intros H. apply IH in H. destruct H as [H Hnz].
  apply process_item_inv in E.
  destruct E as (pid' & q' & p & Hl & Hpid & Hq & Hsel & _ & -> & _).
  injection Hl as <- <-. rewrite Hsel. simpl.
  split; [|constructor; auto].
  apply andb_true_iff. split; [now apply Z.ltb_lt|exact H].
Qed.

(** X16.  A bill that is accepted takes from the stock of every product
    exactly the units its items ask of that product, all items of the
    product taken together, and never more than was in stock. *)
Theorem billed_stock_is_deducted now c items d t s s' msg bill_id total :
  wf_db s = true ->
  generate_bill now c items d t s
    = (s', (201, BillGenerated msg bill_id total)) ->
  exists lines,
    items = Items (map item_of lines) /\
    forall pid,
      demand pid (map fst lines) <= stock pid s /\
      stock pid s' = stock pid s - demand pid (map fst lines).
Proof.
  intros Hwf H. apply wf_db_spec in Hwf.
  destruct (generate_bill_201 _ _ _ _ _ _ _ _ H eq_refl)
    as (customer & lines & inv' & _ & -> & _ & Hp & _ & ->).
  exists lines. split; [reflexivity|].
  pose proof (process_items_valid_items _ _ _ _ _ Hp) as [Hv _].
  pose proof (process_items_demand (map fst lines) s fzero [] Hwf Hv) as Hd.
  rewrite <- items_of_lines, Hp in Hd. destruct Hd as [H1 H2].
  intros pid. split; [apply H1|]. rewrite <- H2. reflexivity.
Qed.

(** Three widgets, a gadget and four more widgets on one bill. *)
Lemma billed_stock_is_deducted_witness :
  let s' := fst (generate_bill "" (Some "Ada")
                               (Items [line 1 3; line 2 1; line 1 4]) None None
                               shop) in
  (stock 1 shop = 10 /\ stock 1 s' = 3 /\ stock 2 s' = 3)
  /\ exists lines,
       Items [line 1 3; line 2 1; line 1 4] = Items (map item_of lines) /\
       forall pid,
         demand pid (map fst lines) <= stock pid shop /\
         stock pid s' = stock pid shop - demand pid (map fst lines).
Proof.
  split; [repeat split|].
  apply (billed_stock_is_deducted "" (Some "Ada")
           (Items [line 1 3; line 2 1; line 1 4]) None None shop _
           "Bill generated successfully" 1 72.5%float).
  - reflexivity.
  - reflexivity.
Defined.



(** X18.  An accepted request had a customer name and a non-empty list of
    items, each with a product id other than 0 that the catalog has and an
    integer quantity above 0; it adds one row to [bills] and one row to
    [bill_items] per item. *)
Theorem accepted_bill_has_valid_items now c items d t s s' r :
  generate_bill now c items d t s = (s', r) -> status r = 201 ->
  truthy_str c = true /\
  exists l,
    items = Items l /\ l <> [] /\
    Forall (fun it => exists pid q,
              it = line pid q /\ pid <> 0 /\ 0 < q /\
              is_some (Sql.select_product pid s) = true) l /\
    List.length (bills s') = S (List.length (bills s)) /\
    List.length (bill_items s')
      = (List.length (bill_items s) + List.length l)%nat.
Proof.
  intros H Hr.
  assert (truthy_str c = true /\ truthy_items items = true) as [Hc Hi].
  { revert H Hr. unfold generate_bill.
    destruct (truthy_str c), (truthy_items items); cbn [andb negb]; auto;
      intros [= <- <-]; discriminate. }
  split; [exact Hc|].
  destruct (generate_bill_201 _ _ _ _ _ _ _ _ H Hr)
    as (customer & lines & inv' & _ & -> & _ & Hp & _ & ->).
  exists (map item_of lines). split; [reflexivity|].
  pose proof (process_items_valid_items _ _ _ _ _ Hp) as [Hv Hnz].
  split; [|split; [|split]].
  - destruct lines; [discriminate|discriminate].
  - apply Forall_forall. intros it Hit. apply in_map_iff in Hit.
    destruct Hit as ([[pid q] price] & <- & Hin).
    rewrite Forall_forall in Hnz. specialize (Hnz _ Hin). simpl in Hnz.
    unfold valid_items in Hv. rewrite forallb_forall in Hv.
    specialize (Hv (pid, q) (in_map fst _ _ Hin)). simpl in Hv.
    apply andb_true_iff in Hv. destruct Hv as [Hsel Hq].
    apply Z.ltb_lt in Hq. exists pid, q. auto.
  - simpl. rewrite length_app. simpl. lia.
  - simpl. rewrite length_app, length_map. f_equal.
    generalize (seq_bill_items s). clear.
    induction lines as [|[[pid q] price] lines IH]; intros z; simpl; auto.
Qed.

Lemma accepted_bill_has_valid_items_witness :
  truthy_str (Some "Ada") = true /\
  exists l,
    Items [line 1 3; line 2 1] = Items l /\ l <> [] /\
    Forall (fun it => exists pid q,
              it = line pid q /\ pid <> 0 /\ 0 < q /\
              is_some (Sql.select_product pid shop) = true) l /\
    List.length (bills (fst (generate_bill "" (Some "Ada")
                               (Items [line 1 3; line 2 1]) None None shop)))
      = S (List.length (bills shop)) /\
    List.length (bill_items (fst (generate_bill "" (Some "Ada")
                                    (Items [line 1 3; line 2 1]) None None shop)))
      = (List.length (bill_items shop) + List.length l)%nat.
Proof.
  apply (accepted_bill_has_valid_items "" (Some "Ada")
           (Items [line 1 3; line 2 1]) None None shop _
           (201, BillGenerated "Bill generated successfully" 1 32.5%float)).
  - reflexivity.
  - reflexivity.
Defined.

Lemma bills_data_length (s : db) :
  List.length (bills_data s) = List.length (bills s).
Proof.
  unfold bills_data. rewrite length_map.
  apply Permutation_length, order_by_date_desc_perm.
Qed.

(** X19.  A bill that has just been accepted gets an id above the id of
    every earlier bill and is listed by [GET /bills] exactly once, with the
    customer, date, total, discount and tax of the request and one item
    per item of the order, carrying the quantity and price billed and the
    name and description its product has in the catalog. *)
Theorem new_bill_is_listed now c items d t s s1 msg bill_id total :
  wf_db s = true ->
  generate_bill now c items d t s
    = (s1, (201, BillGenerated msg bill_id total)) ->
  exists lines customer,
    c = Some customer /\ items = Items (map item_of lines) /\
    (forall b, In b (bills s) -> b_id b < bill_id) /\
    let v := mkBillView
               (mkBill bill_id customer now total
                       (get_default d fzero) (get_default t fzero))
               (flat_map (item_view_of s) lines) in
    In v (bills_data s1) /\
    List.length (bv_items v) = List.length lines /\
    (forall v', In v' (bills_data s1) -> b_id (bv_bill v') = bill_id -> v' = v) /\
    List.length (bills_data s1) = S (List.length (bills_data s)).
Proof.
  intros Hwf H. apply wf_db_spec in Hwf.
  assert (wf s1) as Hwf1.
  { pose proof (generate_bill_wf now c items d t s Hwf) as W.
    now rewrite H in W. }
  destruct (generate_bill_201 _ _ _ _ _ _ _ _ H eq_refl)
    as (customer & lines & inv' & -> & -> & Hp & _ & Hr & Hs1).
  injection Hr as -> -> ->.
  set (total := bill_total lines (get_default d fzero) (get_default t fzero)) in *.
  set (b := mkBill (seq_bills s + 1) customer now total
                   (get_default d fzero) (get_default t fzero)).
  assert (select_bill_items (seq_bills s + 1) s1
          = flat_map (item_view_of s) lines) as Hitems.
  { rewrite select_bill_items_rows by exact Hwf1.
    rewrite Hs1. cbn [bill_items]. rewrite new_bill_items.
    - rewrite views_of_new_rows. apply flat_map_ext.
      intros [[x q] price]. reflexivity.
    - destruct Hwf as [_ _ _ _ _ _ _ _ Wl].
      eapply Forall_impl; [|exact Wl]. simpl. intros; lia. }
  assert (In b (bills s1)) as Hb.
  { rewrite Hs1. cbn [bills]. apply in_app_iff. right. now left. }
  exists lines, customer. split; [reflexivity|]. split; [reflexivity|].
  split; [|split; [|split; [|split]]].
  - intros b' Hb'. destruct Hwf as [_ _ _ _ _ [_ Wb] _ _ _].
    rewrite Forall_forall in Wb.
    specialize (Wb (b_id b') (in_map _ _ _ Hb')). lia.
  - unfold bills_data. apply in_map_iff. exists b. split.
    + f_equal. exact Hitems.
    + eapply Permutation_in; [symmetry; apply order_by_date_desc_perm|exact Hb].
  - cbn [bv_items]. now apply views_of_priced_lines.
  - intros v' Hv' Hid. unfold bills_data in Hv'. apply in_map_iff in Hv'.
    destruct Hv' as (b' & <- & Hb').
    apply (Permutation_in _ (order_by_date_desc_perm (bills s1))) in Hb'.
    simpl in Hid.
    assert (b' = b) as ->.
    { eapply NoDup_map_inj with (g := b_id); eauto. apply Hwf1. }
    f_equal. exact Hitems.
  - rewrite !bills_data_length, Hs1. cbn [bills]. rewrite length_app.
    simpl. lia.
Qed.

Lemma new_bill_is_listed_witness :
  let s1 := fst (generate_bill "2024-05-01T09:30:00" (Some "Ada")
                               (Items [line 1 3; line 2 1]) None None shop) in
  exists lines customer,
    Some "Ada" = Some customer /\
    Items [line 1 3; line 2 1] = Items (map item_of lines) /\
    (forall b, In b (bills shop) -> b_id b < 1) /\
    let v := mkBillView
               (mkBill 1 customer "2024-05-01T09:30:00" 32.5%float
                       (get_default None fzero) (get_default None fzero))
               (flat_map (item_view_of shop) lines) in
    In v (bills_data s1) /\
    List.length (bv_items v) = List.length lines /\
    (forall v', In v' (bills_data s1) -> b_id (bv_bill v') = 1 -> v' = v) /\
    List.length (bills_data s1) = S (List.length (bills_data shop)).
Proof.
  apply (new_bill_is_listed "2024-05-01T09:30:00" (Some "Ada")
           (Items [line 1 3; line 2 1]) None None shop _
           "Bill generated successfully" 1 32.5%float).
  - reflexivity.
  - reflexivity.
Defined.

(** X20.  Every database the application reaches from the empty one keeps
    the ids of [products], [inventory] and [bills] pairwise distinct,
    positive and at most the table's AUTOINCREMENT counter, every batch
    under a product id that has been handed out and with a positive
    quantity, and every line item under a bill id that has been handed
    out. *)
Theorem reachable_databases_are_well_formed rs :
  wf (run rs init_db).
Proof.
  apply run_wf. apply wf_db_spec. reflexivity.
Qed.
